(** * Sanitas: the patient-record application

    A shallow embedding of the parts of the Sanitas sources that the
    specification speaks about:

    - [sanitas_frontend] data layer: [searchPatient], [checkCui],
      [submitPatientData];
    - [sanitas_frontend] views: [SearchPatientView] and the
      [AddPatientView] / [PatientForm] pair;
    - [sanitas_backend] handler [GetGeneralStudentInfo];
    - the endpoints that are exercised by the integration tests only
      ([POST /patient], [GET /patient/surgical-history/{id}]).

    JavaScript values are embedded as the inductive [jsval], JavaScript
    objects used as records as [gmap string jsval], strings as sequences of
    UTF-16 code units, and effects (alerts, log lines, calls to the network
    or the database) as a state, exception and trace monad. *)

From Stdlib Require Import ZArith NArith Ascii String List Lia DecimalString.
From stdpp Require Import base option list gmap strings.

Set Default Proof Using "Type".
Set Warnings "-register-all".
Local Open Scope Z_scope.

(** ** JavaScript strings *)

Module JsString.

(** A JavaScript string is a sequence of UTF-16 code units. *)
Definition t : Type := list N.

(** The source files are UTF-8 text.  [decode] turns the bytes of a
    literal, as written in the source, into its code units (one-, two-
    and three-byte sequences, which cover the Basic Multilingual
    Plane). *)
Fixpoint decode (s : string) : t :=
  match s with
  | EmptyString => []
  | String a rest =>
      let b0 := N_of_ascii a in
      if (b0 <? 128)%N then b0 :: decode rest
      else if (b0 <? 224)%N then
        match rest with
        | String a1 rest1 =>
            (N.lor (N.shiftl (N.land b0 31) 6) (N.land (N_of_ascii a1) 63))
              :: decode rest1
        | EmptyString => [b0]
        end
      else
        match rest with
        | String a1 (String a2 rest2) =>
            (N.lor (N.shiftl (N.land b0 15) 12)
               (N.lor (N.shiftl (N.land (N_of_ascii a1) 63) 6)
                  (N.land (N_of_ascii a2) 63)))
              :: decode rest2
        | _ => [b0]
        end
  end.

(** [String.prototype.length]. *)
Definition length (s : t) : Z := Z.of_nat (List.length s).

(** ECMAScript [WhiteSpace] and [LineTerminator] code units, the ones
    [String.prototype.trim] strips. *)
Definition is_white_space (c : N) : bool :=
  existsb (N.eqb c)
    [9; 10; 11; 12; 13; 32; 160; 5760;
     8192; 8193; 8194; 8195; 8196; 8197; 8198; 8199; 8200; 8201; 8202;
     8232; 8233; 8239; 8287; 12288; 65279]%N.

Fixpoint trim_start (s : t) : t :=
  match s with
  | c :: rest => if is_white_space c then trim_start rest else s
  | [] => []
  end.

Definition trim_end (s : t) : t := rev (trim_start (rev s)).

(** [String.prototype.trim]. *)
Definition trim (s : t) : t := trim_end (trim_start s).

Definition eqb (a b : t) : bool := bool_decide (a = b).

End JsString.

Abbreviation jsstring := JsString.t.
Abbreviation js := JsString.decode.
Arguments JsString.decode : simpl never.

(** ** JavaScript values *)

(** The values that travel through the modelled code: the JSON values
    (numbers restricted to the integers) and [undefined]. *)
Inductive jsval : Type :=
  | JUndefined
  | JNull
  | JBool (b : bool)
  | JNum (n : Z)
  | JStr (s : jsstring)
  | JArr (elems : list jsval)
  | JObj (props : gmap string jsval).

Abbreviation jsobject := (gmap string jsval).

(** Reading a property of a plain object: an absent property reads as
    [undefined]. *)
Definition prop (o : jsobject) (k : string) : jsval :=
  default JUndefined (o !! k).

(** [ToBoolean]. *)
Definition truthy (v : jsval) : bool :=
  match v with
  | JUndefined | JNull => false
  | JBool b => b
  | JNum n => negb (n =? 0)
  | JStr s => match s with [] => false | _ :: _ => true end
  | JArr _ | JObj _ => true
  end.

(** [Number.prototype.toString] on an integer: its decimal digits.
    JavaScript prints integers from 10^21 on in exponent form; the model
    covers the integers below. *)
Definition number_to_string (n : Z) : jsstring :=
  js (DecimalString.NilZero.string_of_int (Z.to_int n)).

(** [ToString], as a template literal applies it.  An array joins the
    strings of its elements with commas, [null] and [undefined] elements
    contributing nothing. *)
Fixpoint to_string (v : jsval) : jsstring :=
  match v with
  | JUndefined => js "undefined"
  | JNull => js "null"
  | JBool true => js "true"
  | JBool false => js "false"
  | JNum n => number_to_string n
  | JStr s => s
  | JArr elems =>
      (fix join (l : list jsval) : jsstring :=
         match l with
         | [] => []
         | x :: rest =>
             let sx := match x with
                       | JUndefined | JNull => []
                       | _ => to_string x
                       end in
             match rest with
             | [] => sx
             | _ :: _ => sx ++ js "," ++ join rest
             end
         end) elems
  | JObj _ => js "[object Object]"
  end.

(** Strict equality [===] against a primitive.  Objects and arrays compare
    by reference in JavaScript; the sources only ever compare with a
    primitive literal, for which an object or array is never equal. *)
Definition strict_equal (a b : jsval) : bool :=
  match a, b with
  | JUndefined, JUndefined => true
  | JNull, JNull => true
  | JBool x, JBool y => bool_decide (x = y)
  | JNum x, JNum y => x =? y
  | JStr x, JStr y => JsString.eqb x y
  | _, _ => false
  end.

(** ** Exceptions *)

Record HttpResponse := mkHttpResponse {
  status : Z;
  data : jsval;
}.

(** The values the modelled code throws or catches. *)
Inductive exn : Type :=
  | Error (message : jsstring) (cause : option exn)
  | TypeError (message : jsstring)
  | AxiosError (message : jsstring) (response : option HttpResponse)
      (request : bool).

Definition exn_message (e : exn) : jsstring :=
  match e with
  | Error m _ | TypeError m | AxiosError m _ _ => m
  end.

(** [error.cause] *)
Definition exn_cause (e : exn) : option exn :=
  match e with
  | Error _ c => c
  | _ => None
  end.

(** [error.response] *)
Definition exn_response (e : exn) : option HttpResponse :=
  match e with
  | AxiosError _ r _ => r
  | _ => None
  end.

(** [error.request], as a condition. *)
Definition exn_request (e : exn) : bool :=
  match e with
  | AxiosError _ _ r => r
  | _ => false
  end.

Inductive outcome (A : Type) : Type :=
  | Return (a : A)
  | Throw (e : exn).
Arguments Return {A} a.
Arguments Throw {A} e.

#[export] Instance outcome_ret : MRet outcome := fun A a => Return a.

#[export] Instance outcome_fmap : FMap outcome :=
  fun A B f m =>
    match m with
    | Return a => Return (f a)
    | Throw e => Throw e
    end.

#[export] Instance outcome_bind : MBind outcome :=
  fun A B k m =>
    match m with
    | Return a => k a
    | Throw e => Throw e
    end.

(** ** Effects

    A computation reads and writes its local state [S], ends by returning
    or by throwing, and leaves a trace of the observable calls it made.
    The state survives a throw, as JavaScript variables do. *)
Definition eff (S E A : Type) : Type := S -> outcome A * S * list E.

#[export] Instance eff_ret {S E} : MRet (eff S E) :=
  fun A a s => (Return a, s, []).

#[export] Instance eff_bind {S E} : MBind (eff S E) :=
  fun A B k m s =>
    match m s with
    | (Return a, s1, t1) =>
        match k a s1 with (r, s2, t2) => (r, s2, t1 ++ t2) end
    | (Throw e, s1, t1) => (Throw e, s1, t1)
    end.

Definition throw {S E A} (e : exn) : eff S E A :=
  fun s => (Throw e, s, []).

(** An observable call that cannot fail. *)
Definition emit {S E} (ev : E) : eff S E unit :=
  fun s => (Return tt, s, [ev]).

(** A call into the outside world, whose outcome the world decides. *)
Definition perform {S E A} (ev : E) (r : outcome A) : eff S E A :=
  fun s => (r, s, [ev]).

Definition lift_outcome {S E A} (r : outcome A) : eff S E A :=
  fun s => (r, s, []).

Definition get_state {S E} : eff S E S :=
  fun s => (Return s, s, []).

Definition modify_state {S E} (f : S -> S) : eff S E unit :=
  fun s => (Return tt, f s, []).

(** [try { m } catch (error) { h error }] *)
Definition try_catch {S E A} (m : eff S E A) (h : exn -> eff S E A)
  : eff S E A :=
  fun s =>
    match m s with
    | (Return a, s1, t1) => (Return a, s1, t1)
    | (Throw e, s1, t1) =>
        match h e s1 with (r, s2, t2) => (r, s2, t1 ++ t2) end
    end.

(** [try { m } finally { f }]: the completion of [m] stands unless [f]
    itself throws. *)
Definition try_finally {S E A} (m : eff S E A) (f : eff S E unit)
  : eff S E A :=
  fun s =>
    match m s with
    | (r, s1, t1) =>
        match f s1 with
        | (Return _, s2, t2) => (r, s2, t1 ++ t2)
        | (Throw e, s2, t2) => (Throw e, s2, t1 ++ t2)
        end
    end.

(** [Array.prototype.map] with a callback that may throw. *)
Fixpoint map_eff {S E A B} (f : A -> eff S E B) (l : list A)
  : eff S E (list B) :=
  match l with
  | [] => mret []
  | x :: rest => y ← f x; ys ← map_eff f rest; mret (y :: ys)
  end.

Definition result_of {S E A} (r : outcome A * S * list E) : outcome A :=
  r.1.1.
Definition state_of {S E A} (r : outcome A * S * list E) : S := r.1.2.
Definition trace_of {S E A} (r : outcome A * S * list E) : list E := r.2.

(** Property access [v.k] on an arbitrary value.  Own properties and
    [length] are modelled; none of the names the sources read lives on a
    prototype.  The message of the engine's [TypeError] is abbreviated
    (the engine also names the property read). *)
Definition get_prop (v : jsval) (k : string) : outcome jsval :=
  match v with
  | JUndefined =>
      Throw (TypeError (js "Cannot read properties of undefined"))
  | JNull => Throw (TypeError (js "Cannot read properties of null"))
  | JObj o => Return (prop o k)
  | JStr s =>
      Return (if String.eqb k "length" then JNum (JsString.length s)
              else JUndefined)
  | JArr l =>
      Return (if String.eqb k "length" then JNum (Z.of_nat (length l))
              else JUndefined)
  | JBool _ | JNum _ => Return JUndefined
  end.

(** ** The frontend data layer ([searchPatient], [checkCui],
    [submitPatientData]) *)

Module DataLayer.

(** [{result: Res} | {error: Err}], the [Result] typedef of the source. *)
Inductive Result (Res Err : Type) : Type :=
  | ResultOf (result : Res)
  | ErrorOf (error : Err).
Arguments ResultOf {Res Err} result.
Arguments ErrorOf {Res Err} error.

Record PatientPreview := mkPreview {
  id : jsval;
  names : jsstring;
}.

(** What the module sees of its surroundings: the environment variable
    and how [axios] answers a request. *)
Record Net := mkNet {
  BACKEND_URL : option jsstring;
  axios_post : jsstring -> jsval -> outcome HttpResponse;
  axios_get : jsstring -> outcome HttpResponse;
}.

Inductive NetEvent : Type :=
  | HttpPost (url : jsstring) (body : jsval)
  | HttpGet (url : jsstring).

Abbreviation io := (eff unit NetEvent).

Definition DEV_URL : jsstring := js "http://localhost:3000".

(** [process.env.BACKEND_URL ?? DEV_URL] *)
Definition BASE_URL (net : Net) : jsstring :=
  default DEV_URL (BACKEND_URL net).

(** The callback [searchPatient] maps over [response.data]. *)
Definition to_preview (r : jsval) : io PatientPreview :=
  r_id ← lift_outcome (get_prop r "id");
  if negb (truthy r_id) then
    throw (Error (js "Received patient has no `id`!") None)
  else
    r_nombres ← lift_outcome (get_prop r "nombres");
    if negb (truthy r_nombres) then
      throw (Error (js "Received patient has no `names`!") None)
    else
      r_apellidos ← lift_outcome (get_prop r "apellidos");
      if negb (truthy r_apellidos) then
        throw (Error (js "Received patient has no `apellidos`!") None)
      else
        mret {| id := r_id;
                names := to_string r_nombres ++ js " "
                           ++ to_string r_apellidos |}.

(** [response.data.map(callback)]: only an array has a [map] to call. *)
Definition data_map {B} (d : jsval) (f : jsval -> io B) : io (list B) :=
  match d with
  | JArr elems => map_eff f elems
  | JUndefined | JNull =>
      throw (TypeError (js "Cannot read properties of undefined"))
  | _ => throw (TypeError (js "response.data.map is not a function"))
  end.

Definition searchPatient (net : Net) (query type : jsval)
  : io (Result (list PatientPreview) exn) :=
  try_catch
    (let body := JObj {[ "requestSearch" := query; "searchType" := type ]} in
     let url := BASE_URL net ++ js "/patient/search" in
     response ← try_catch
       (perform (HttpPost url body) (axios_post net url body))
       (fun error => throw (Error (js "API ERROR") (Some error)));
     result ← data_map (data response) to_preview;
     mret (ResultOf result))
    (fun error => mret (ErrorOf error)).

(** [new Error(message, options)] reads [options.cause]; [checkCui] passes
    the caught error itself as the options bag.  A cause that an error of
    [axios] may itself carry is not modelled, so nothing is stated about
    the cause of the [Error] thrown here. *)
Definition checkCui (net : Net) (cui : jsval) : io jsval :=
  try_catch
    (let url := BASE_URL net ++ js "/check-cui/" ++ to_string cui in
     response ← perform (HttpGet url) (axios_get net url);
     exists_ ← lift_outcome (get_prop (data response) "exists");
     mret (JObj {[ "exists" := exists_; "cui" := cui ]}))
    (fun error =>
       throw (Error (js "Error fetching CUI:") (exn_cause error))).

(** The body [submitPatientData] posts. *)
Definition patient_request_body (patientData : jsval) : outcome jsval :=
  cui ← get_prop patientData "cui";
  names ← get_prop patientData "names";
  surnames ← get_prop patientData "surnames";
  sex ← get_prop patientData "sex";
  birthDate ← get_prop patientData "birthDate";
  mret (JObj {[ "cui" := cui;
                "nombres" := names;
                "apellidos" := surnames;
                "esMujer" := JStr (if truthy sex then js "F" else js "M");
                "fechaNacimiento" := birthDate ]}).

(** [error.response.data.error || "Error registering information"] *)
Definition registering_message (r : HttpResponse) : outcome jsval :=
  v ← get_prop (data r) "error";
  mret (if truthy v then v else JStr (js "Error registering information")).

Definition submitPatientData (net : Net) (patientData : jsval) : io jsval :=
  try_catch
    (let url := BASE_URL net ++ js "/patient" in
     body ← lift_outcome (patient_request_body patientData);
     response ← perform (HttpPost url body) (axios_post net url body);
     mret (data response))
    (fun error =>
       match exn_response error with
       | Some r =>
           m ← lift_outcome (registering_message r);
           throw (Error (to_string m) None)
       | None =>
           if exn_request error then
             throw (Error (js "No response was received") None)
           else
             throw (Error (js "Error setting up request") None)
       end).

(** The [esMujer] property of the body of the one request a run posted. *)
Definition posted_esMujer (trace : list NetEvent) : option jsval :=
  match trace with
  | [HttpPost _ (JObj body)] => body !! "esMujer"
  | _ => None
  end.


(** The request [searchPatient] sends. *)
Definition search_url (net : Net) : jsstring :=
  BASE_URL net ++ js "/patient/search".

Definition search_body (query type : jsval) : jsval :=
  JObj {[ "requestSearch" := query; "searchType" := type ]}.

(** [p] is the preview of the record [r]: the record carries an [id],
    [nombres] and [apellidos], and [p] is its [id] with the two names
    joined by a space. *)
Definition preview_of (r : jsval) (p : PatientPreview) : Prop :=
  exists o : jsobject,
    r = JObj o
    /\ truthy (prop o "id") = true
    /\ truthy (prop o "nombres") = true
    /\ truthy (prop o "apellidos") = true
    /\ p = {| id := prop o "id";
              names := to_string (prop o "nombres") ++ js " "
                         ++ to_string (prop o "apellidos") |}.

(** The record [r] has no property [k]. *)
Definition lacks (r : jsval) (k : string) : Prop :=
  exists o : jsobject, r = JObj o /\ o !! k = None.

Definition incomplete (r : jsval) : Prop :=
  lacks r "id" \/ lacks r "nombres" \/ lacks r "apellidos".

End DataLayer.

(** ** [SearchPatientView] *)

Module SearchPatientView.
Import DataLayer.

(** The part of the store the view reads, and its own [error] state. *)
Record State := mkState {
  query : jsstring;
  type : jsval;
  patients : list PatientPreview;
  error : jsstring;
}.

Inductive Event : Type :=
  | SearchPatientsApiCall (query : jsstring) (type : jsval).

(** The injected [searchPatientsApiCall] prop: any function from a query
    and a type to a settled promise. *)
Definition SearchPatientApiFunction : Type :=
  jsstring -> jsval -> outcome (Result (list PatientPreview) exn).

Definition setError (message : jsstring) : eff State Event unit :=
  modify_state (fun s =>
    {| query := query s; type := type s; patients := patients s;
       error := message |}).

Definition setPatients (ps : list PatientPreview) : eff State Event unit :=
  modify_state (fun s =>
    {| query := query s; type := type s; patients := ps;
       error := error s |}).

Definition setSearchQuery (q : jsstring) (t : jsval) (s : State) : State :=
  {| query := q; type := t; patients := patients s; error := error s |}.

Definition showErrorMessage (message : jsstring) : eff State Event unit :=
  setError (js "ERROR: " ++ message).

Definition hideErrorMessage : eff State Event unit := setError [].

(** [query.trim().length <= 0], computed when the view renders. *)
Definition emptyQuery (rendered : State) : bool :=
  JsString.length (JsString.trim (query rendered)) <=? 0.

(** [response?.status < 500], where an absent response gives
    [undefined < 500], which is false. *)
Definition status_below_500 (response : option HttpResponse) : bool :=
  match response with
  | Some r => status r <? 500
  | None => false
  end.

(** The click handler closes over the values of the render it was created
    in ([rendered]); the state it runs on is the current one. *)
Definition searchBtnClick (searchPatientsApiCall : SearchPatientApiFunction)
    (rendered : State) : eff State Event unit :=
  _ ← hideErrorMessage;
  if emptyQuery rendered then
    showErrorMessage (js "Por favor ingrese algo para buscar!")
  else
    result ← perform (SearchPatientsApiCall (query rendered) (type rendered))
               (searchPatientsApiCall (query rendered) (type rendered));
    match result with
    | ErrorOf error =>
        match exn_cause error with
        | Some cause =>
            if status_below_500 (exn_response cause) then
              showErrorMessage
                (js "Búsqueda incorrecta, por favor ingresa todos los parámetros!")
            else
              showErrorMessage (js "Ha ocurrido un error interno, lo sentimos.")
        | None => showErrorMessage (js "The API has changed!")
        end
    | ResultOf apiPatients => setPatients apiPatients
    end.

(** The [disabled] attribute of the search button. *)
Definition search_button_disabled (rendered : State) : bool :=
  emptyQuery rendered.

(** What the user can do to the rendered view. *)
Inductive Action : Type :=
  | TypeQuery (value : jsstring)
  | SelectType (value : jsval)
  | ClickSearch.

(** One user action on the view rendered from [s]: the new state and the
    calls made.  A disabled button does not deliver its click. *)
Definition act (api : SearchPatientApiFunction) (a : Action) (s : State)
  : State * list Event :=
  match a with
  | TypeQuery v => (setSearchQuery v (type s) s, [])
  | SelectType v => (setSearchQuery (query s) v s, [])
  | ClickSearch =>
      if search_button_disabled s then (s, [])
      else
        let r := searchBtnClick api s s in (state_of r, trace_of r)
  end.

Fixpoint run (api : SearchPatientApiFunction) (actions : list Action)
    (s : State) : State * list Event :=
  match actions with
  | [] => (s, [])
  | a :: rest =>
      let '(s1, t1) := act api a s in
      let '(s2, t2) := run api rest s1 in
      (s2, t1 ++ t2)
  end.

(** A query that is empty or consists only of white space. *)
Definition blank (q : jsstring) : Prop :=
  Forall (fun c => JsString.is_white_space c = true) q.

(** A call whose query is not blank. *)
Definition call_not_blank (e : Event) : Prop :=
  match e with
  | SearchPatientsApiCall q _ => ~ blank q
  end.

End SearchPatientView.

(** ** [AddPatientView] and [PatientForm] *)

Module PatientForm.

Inductive Event : Type :=
  | Alert (message : jsstring)
  | SubmitPatientData (patientData : jsobject)
  | SetSelectedPatientId (id : jsval)
  | NavigateUpdatePatient (replace : bool).

Abbreviation ui := (eff unit Event).

(** The state [AddPatientView] starts from; [stateCui] is
    [location.state?.cui]. *)
Definition initialPatientData (stateCui : jsval) : jsobject :=
  {[ "cui" := match stateCui with
              | JUndefined | JNull => JStr []
              | v => v
              end;
     "names" := JStr [];
     "surnames" := JStr [];
     "sex" := JNull;
     "birthDate" := JStr [] ]}.

(** The class [[a-zA-ZáéíóúÁÉÍÓÚñÑ\s]] of the name filter. *)
Definition name_char (c : N) : bool :=
  ((97 <=? c) && (c <=? 122))%N || ((65 <=? c) && (c <=? 90))%N
  || existsb (N.eqb c) (js "áéíóúÁÉÍÓÚñÑ")
  || JsString.is_white_space c.

(** [\d] *)
Definition digit_char (c : N) : bool := ((48 <=? c) && (c <=? 57))%N.

Definition handleChange (patientData : jsobject) (field : string)
    (value : jsstring) : jsobject :=
  if String.eqb field "names" || String.eqb field "surnames" then
    let filteredValue := filter (fun c => name_char c = true) value in
    <[ field := JStr filteredValue ]> patientData
  else
    <[ field := JStr value ]> patientData.

Definition handleGenderChange (patientData : jsobject) (isFemale : jsval)
  : jsobject :=
  <[ "sex" := isFemale ]> patientData.

(** The [onChange] handlers the form wires to its inputs. *)
Inductive Input : Type :=
  | CuiInput (value : jsstring)
  | NamesInput (value : jsstring)
  | SurnamesInput (value : jsstring)
  | FemeninoRadio
  | MasculinoRadio
  | BirthDateInput (value : jsstring).

Definition onChange (patientData : jsobject) (i : Input) : jsobject :=
  match i with
  | CuiInput v =>
      handleChange patientData "cui" (filter (fun c => digit_char c = true) v)
  | NamesInput v => handleChange patientData "names" v
  | SurnamesInput v => handleChange patientData "surnames" v
  | FemeninoRadio => handleGenderChange patientData (JStr (js "F"))
  | MasculinoRadio => handleGenderChange patientData (JStr (js "M"))
  | BirthDateInput v => handleChange patientData "birthDate" v
  end.

(** The states of [AddPatientView]: the initial one, changed by any
    sequence of inputs. *)
Definition after_inputs (stateCui : jsval) (inputs : list Input) : jsobject :=
  fold_left onChange inputs (initialPatientData stateCui).

Definition required_fields : list string := ["names"; "surnames"; "birthDate"].

Definition validateFormData (patientData : jsobject) : ui bool :=
  len ← lift_outcome (get_prop (prop patientData "cui") "length");
  if negb (strict_equal len (JNum 13)) then
    _ ← emit (Alert (js "El CUI debe contener exactamente 13 caracteres."));
    mret false
  else
    match find (fun field => negb (truthy (prop patientData field)))
               required_fields with
    | Some field =>
        _ ← emit (Alert (js "El campo " ++ js field
                           ++ js " es obligatorio y no puede estar vacío."));
        mret false
    | None =>
        if strict_equal (prop patientData "isWoman") JNull then
          _ ← emit (Alert (js "El campo de género es obligatorio."));
          mret false
        else mret true
    end.

(** [submitPatientData] is the injected prop: any function from the form
    data to a settled promise. *)
Definition handleSubmit (submitPatientData : jsobject -> outcome jsval)
    (patientData : jsobject) : ui unit :=
  validateFormData patientData ≫= fun valid : bool =>
  if valid then
    try_catch
      (id ← perform (SubmitPatientData patientData)
              (submitPatientData patientData);
       _ ← emit (Alert (js "¡Información registrada con éxito!"));
       _ ← emit (SetSelectedPatientId id);
       emit (NavigateUpdatePatient true))
      (fun error =>
         emit (Alert (js "Error al enviar datos: " ++ exn_message error)))
  else mret tt.

(** Whether a run of the form called [submitPatientData]. *)
Definition is_submit (e : Event) : bool :=
  match e with
  | SubmitPatientData _ => true
  | _ => false
  end.

Definition submitted (trace : list Event) : bool := existsb is_submit trace.

(** The three checks the form is meant to make, read off the state the
    view keeps: the length of the CUI, the required fields, and the
    selected gender (the [sex] property the radio buttons set). *)
Definition cui_has_13_characters (patientData : jsobject) : bool :=
  match prop patientData "cui" with
  | JStr s => JsString.length s =? 13
  | _ => false
  end.

Definition required_fields_filled (patientData : jsobject) : bool :=
  forallb (fun field => truthy (prop patientData field)) required_fields.

Definition gender_selected (patientData : jsobject) : bool :=
  negb (strict_equal (prop patientData "sex") JNull).

(** The [checked] attribute of the two radio buttons, as the form renders
    them. *)
Definition femenino_checked (patientData : jsobject) : bool :=
  strict_equal (prop patientData "sex") (JStr (js "F")).

Definition masculino_checked (patientData : jsobject) : bool :=
  strict_equal (prop patientData "sex") (JStr (js "M")).

(** Strings made of digits only, and of the characters the name filter
    lets through. *)
Definition digits_only (s : jsstring) : Prop :=
  Forall (fun c => digit_char c = true) s.

Definition name_chars_only (s : jsstring) : Prop :=
  Forall (fun c => name_char c = true) s.

(** What holds of the form data whatever the user has typed: the names
    and the birth date are strings, the names made of the characters the
    filter lets through; [sex] is [null], "F" or "M"; and the CUI is
    either still the value the view started with or a string of digits. *)
Definition well_formed (stateCui : jsval) (patientData : jsobject) : Prop :=
  (exists s, prop patientData "names" = JStr s /\ name_chars_only s)
  /\ (exists s, prop patientData "surnames" = JStr s /\ name_chars_only s)
  /\ (exists s, prop patientData "birthDate" = JStr s)
  /\ (prop patientData "sex" = JNull
      \/ prop patientData "sex" = JStr (js "F")
      \/ prop patientData "sex" = JStr (js "M"))
  /\ (prop patientData "cui" = prop (initialPatientData stateCui) "cui"
      \/ exists s, prop patientData "cui" = JStr s /\ digits_only s).

(** The alerts of a run of the form. *)
Definition alerts (trace : list Event) : list jsstring :=
  omap (fun e => match e with Alert m => Some m | _ => None end) trace.

End PatientForm.

(** ** The views wired to the data layer *)

Module App.

(** [searchPatient] as the [searchPatientsApiCall] prop of
    [SearchPatientView] (both are typed [SearchPatientApiFunction] in the
    sources); the view passes the query string of the store. *)
Definition searchPatientsApiCall (net : DataLayer.Net)
  : SearchPatientView.SearchPatientApiFunction :=
  fun query type =>
    result_of (DataLayer.searchPatient net (JStr query) type tt).

(** [submitPatientData] as the prop of the same name of [AddPatientView]. *)
Definition submitPatientData (net : DataLayer.Net)
  : jsobject -> outcome jsval :=
  fun patientData =>
    result_of (DataLayer.submitPatientData net (JObj patientData) tt).

End App.

(** ** Backend: the response envelope *)

Module Backend.

(** The [body] of a response.  [JSON.stringify] is kept symbolic:
    [JSON_stringify v] is the text [JSON.stringify(v)]. *)
Inductive Body : Type :=
  | JSON_stringify (v : jsval)
  | JSON_stringify_error (e : exn)
  | Raw (v : jsval).

Record Response := mkResponse {
  statusCode : Z;
  headers : gmap string jsstring;
  body : Body;
}.

(** Modelled from the spec: the response builder of the [utils] package,
    which is not among the sources.  Section 4.1: it takes a status code,
    optional CORS headers and a body, and assembles them; the CORS
    headers, when requested, allow any origin and a whitelist of methods;
    there is no error condition and no effect.  The whitelist is the
    package's choice and is taken as [methods]. *)
Definition createResponse : Response :=
  {| statusCode := 200; headers := ∅; body := Raw JUndefined |}.

Definition setStatusCode (code : Z) (r : Response) : Response :=
  {| statusCode := code; headers := headers r; body := body r |}.

Definition addCORSHeaders (methods : jsstring) (r : Response) : Response :=
  {| statusCode := statusCode r;
     headers := <[ "Access-Control-Allow-Origin" := js "*" ]>
                  (<[ "Access-Control-Allow-Methods" := methods ]>
                     (headers r));
     body := body r |}.

Definition setBody (b : Body) (r : Response) : Response :=
  {| statusCode := statusCode r; headers := headers r; body := b |}.

Definition build (r : Response) : Response := r.

(** The [message] of a body [JSON.stringify({message: ...})]. *)
Definition body_message (r : Response) : option jsstring :=
  match body r with
  | JSON_stringify (JObj o) =>
      match o !! "message" with
      | Some (JStr m) => Some m
      | _ => None
      end
  | _ => None
  end.

(** The [error] of a body [JSON.stringify({error: ...})]. *)
Definition body_error (r : Response) : option jsstring :=
  match body r with
  | JSON_stringify (JObj o) =>
      match o !! "error" with
      | Some (JStr m) => Some m
      | _ => None
      end
  | _ => None
  end.

End Backend.

(** ** Backend: the student-information handler *)

Module GetGeneralStudentInfo.
Import Backend.

(** The fields of the Lambda event the handler reads. *)
Record LambdaEvent := mkEvent {
  httpMethod : jsval;
  pathParameters : jsval;
}.

Inductive PgClient : Type := pgClient (url : jsval).

(** The result of [client.query]. *)
Record DbResponse := mkDbResponse {
  rowCount : jsval;
  rows : list jsval;
}.

(** The handler's surroundings: the environment variable, and how each
    call it makes outside itself ends.  [mapToAPIStudentInfo] and the
    CORS method whitelist belong to the [utils] package, which is not
    among the sources; they are taken as they come. *)
Record World := mkWorld {
  POSTGRES_URL : jsval;
  withRequest : outcome unit;
  getPgClient : jsval -> outcome PgClient;
  connect : outcome unit;
  query : jsstring -> list jsval -> outcome DbResponse;
  client_end : outcome unit;
  mapToAPIStudentInfo : jsval -> outcome jsval;
  corsMethods : jsstring;
}.

Inductive Event : Type :=
  | WithRequest
  | LogInfo (message : jsstring)
  | LogError (message : jsstring)
  | GetPgClient (url : jsval)
  | Connect
  | Query (text : jsstring) (values : list jsval)
  | End_.

(** The handler's one local variable is [client], [None] while it is
    [undefined]. *)
Abbreviation run := (eff (option PgClient) Event).

Definition select_student : jsstring :=
  js "SELECT * FROM estudiante WHERE ID_PACIENTE = $1 LIMIT 1;".

(** The body of the [try] block. *)
Definition try_block (w : World) (event : LambdaEvent) : run Response :=
  let url := POSTGRES_URL w in
  _ ← emit (LogInfo (js "Connecting to DB..."));
  c ← perform (GetPgClient url) (getPgClient w url);
  _ ← modify_state (fun _ => Some c);
  _ ← perform Connect (connect w);
  _ ← emit (LogInfo (js "Checking if received all parameters..."));
  id ← lift_outcome (get_prop (pathParameters event) "id");
  if negb (truthy id) then
    _ ← emit (LogError (js "No id received!"));
    mret {| statusCode := 400;
            headers := {[ "Access-Control-Allow-Headers" := js "Content-Type";
                          "Access-Control-Allow-Origin" := js "*";
                          "Access-Control-Allow-Methods" := js "GET" ]};
            body := JSON_stringify
                      (JObj {[ "message" :=
                                 JStr (js "Invalid request: No id supplied!") ]})
         |}
  else
    _ ← emit (LogInfo (js "CARNET received!"));
    _ ← emit (LogInfo (js "Querying DB..."));
    dbResponse ← perform (Query select_student [id])
                   (query w select_student [id]);
    _ ← emit (LogInfo (js "Query done!"));
    if strict_equal (rowCount dbResponse) (JNum 0) then
      _ ← emit (LogError (js "No record found!"));
      mret (build
              (setBody
                 (JSON_stringify
                    (JObj {[ "message" :=
                               JStr (js "Invalid request: No student with the given ID found.") ]}))
                 (addCORSHeaders (corsMethods w)
                    (setStatusCode 404 createResponse))))
    else
      _ ← emit (LogInfo (js "Creating response..."));
      _ ← emit (LogInfo (js "Responding with:"));
      info ← lift_outcome
               (mapToAPIStudentInfo w (default JUndefined (rows dbResponse !! 0%nat)));
      mret (build
              (setBody (Raw info)
                 (addCORSHeaders (corsMethods w)
                    (setStatusCode 200 createResponse)))).

(** The [catch] block. *)
Definition catch_block (w : World) (error : exn) : run Response :=
  _ ← emit (LogError (js "An error has occurred!"));
  mret (build
          (setBody (JSON_stringify_error error)
             (addCORSHeaders (corsMethods w)
                (setStatusCode 500 createResponse)))).

(** The [finally] block: [await client?.end()]. *)
Definition finally_block (w : World) : run unit :=
  client ← get_state;
  match client with
  | Some _ => perform End_ (client_end w)
  | None => mret tt
  end.

Definition handler (w : World) (event : LambdaEvent) : run Response :=
  _ ← perform WithRequest (withRequest w);
  if negb (strict_equal (httpMethod event) (JStr (js "GET"))) then
    throw (Error (js "/patient/student/{id} only accepts GET method, you tried: "
                    ++ to_string (httpMethod event)) None)
  else
    try_finally (try_catch (try_block w event) (catch_block w))
      (finally_block w).

(** One invocation: [client] starts out undefined. *)
Definition invoke (w : World) (event : LambdaEvent)
  : outcome Response * option PgClient * list Event :=
  handler w event None.

Definition is_end (e : Event) : bool :=
  match e with
  | End_ => true
  | _ => false
  end.

(** How many times the invocation called [client.end()]. *)
Definition releases (trace : list Event) : nat :=
  length (filter (fun e => is_end e = true) trace).

(** The invocation got as far as the [try] block. *)
Definition enters_try (w : World) (event : LambdaEvent) : Prop :=
  withRequest w = Return tt /\ httpMethod event = JStr (js "GET").

(** The queries an invocation sent: their text and their values. *)
Definition queries (trace : list Event) : list (jsstring * list jsval) :=
  omap (fun e => match e with
                 | Query text values => Some (text, values)
                 | _ => None
                 end) trace.

(** The client the handler holds once the [try] block is over. *)
Definition client_after (w : World) : option PgClient :=
  match getPgClient w (POSTGRES_URL w) with
  | Return c => Some c
  | Throw _ => None
  end.

(** A world to run the handler in: one student, of patient 1, is stored;
    [connecting] is how [client.connect()] ends. *)
Definition example_world (connecting : outcome unit) : World :=
  {| POSTGRES_URL := JUndefined;
     withRequest := Return tt;
     getPgClient := fun url => Return (pgClient url);
     connect := connecting;
     query := fun _ values =>
       match values with
       | [JStr i] =>
           if JsString.eqb i (js "1") then
             Return {| rowCount := JNum 1;
                       rows := [JObj {[ "id_paciente" := JNum 1;
                                        "carnet" := JStr (js "22386") ]}] |}
           else Return {| rowCount := JNum 0; rows := [] |}
       | _ => Return {| rowCount := JNum 0; rows := [] |}
       end;
     client_end := Return tt;
     mapToAPIStudentInfo := fun row => Return row;
     corsMethods := js "GET" |}.

(** A GET event for the student of patient [id]. *)
Definition get_event (id : jsval) : LambdaEvent :=
  {| httpMethod := JStr (js "GET");
     pathParameters := JObj {[ "id" := id ]} |}.

End GetGeneralStudentInfo.

(** ** Backend: the patient-creation endpoint *)

Module CreatePatient.
Import Backend.

(** A row of the patient table (section 3 of the specification). *)
Record PatientRow := mkPatientRow {
  row_id : Z;
  row_cui : jsstring;
  row_nombres : jsstring;
  row_apellidos : jsstring;
  row_esMujer : bool;
  row_fechaNacimiento : jsstring;
}.

(** The creation payload, as the integration test posts it; the national
    ID may be left out. *)
Record Payload := mkPayload {
  cui : option jsstring;
  nombres : jsstring;
  apellidos : jsstring;
  esMujer : bool;
  fechaNacimiento : jsstring;
}.

Definition cui_stored (c : jsstring) (table : list PatientRow) : bool :=
  existsb (fun r => JsString.eqb (row_cui r) c) table.

(** The identifier the table gives its next row. *)
Definition next_id (table : list PatientRow) : Z :=
  1 + fold_right Z.max 0 (map row_id table).

Definition error_response (code : Z) (methods : jsstring) (message : jsstring)
  : Response :=
  build (setBody (JSON_stringify (JObj {[ "error" := JStr message ]}))
           (addCORSHeaders methods (setStatusCode code createResponse))).

(** Modelled from the spec: the handler behind [POST /patient], which is
    not among the sources (only its integration test is).  It follows
    section 4.2 step by step: a missing required field yields 400 with a
    descriptive message, here "CUI es requerido."; then a connection is
    acquired, and a failure to get one is an unexpected error, 500; the
    insert runs, and a unique-constraint violation on the national ID
    yields 409 with "CUI ya existe."; otherwise the row is stored and its
    identifier returned.  [connected] says whether the database can be
    reached; the result is the response and the table afterwards. *)
Definition handler (connected : bool) (payload : Payload)
    (table : list PatientRow) : Response * list PatientRow :=
  match cui payload with
  | None => (error_response 400 (js "POST") (js "CUI es requerido."), table)
  | Some c =>
      if negb connected then
        (build (setBody (JSON_stringify_error (Error (js "connection failed") None))
                  (addCORSHeaders (js "POST")
                     (setStatusCode 500 createResponse))),
         table)
      else if cui_stored c table then
        (error_response 409 (js "POST") (js "CUI ya existe."), table)
      else
        let new_id := next_id table in
        (build (setBody (JSON_stringify (JNum new_id))
                  (addCORSHeaders (js "POST")
                     (setStatusCode 200 createResponse))),
         table ++ [ {| row_id := new_id;
                       row_cui := c;
                       row_nombres := nombres payload;
                       row_apellidos := apellidos payload;
                       row_esMujer := esMujer payload;
                       row_fechaNacimiento := fechaNacimiento payload |} ])
  end.

End CreatePatient.

(** ** Backend: the surgical-history endpoint *)

Module GetSurgicalHistory.
Import Backend.

(** A recorded surgery, keyed by the patient it belongs to. *)
Record SurgeryRow := mkSurgeryRow {
  surgery_patient : Z;
  surgeryType : jsstring;
  surgeryYear : jsstring;
  complications : jsstring;
}.

(** The identifiers of the stored patients and the recorded surgeries:
    a patient may have none. *)
Record Database := mkDatabase {
  patient_ids : list Z;
  surgeries : list SurgeryRow;
}.

(** A well-formed identifier is a non-empty run of decimal digits. *)
Fixpoint digits_value (acc : Z) (s : jsstring) : option Z :=
  match s with
  | [] => Some acc
  | c :: rest =>
      if ((48 <=? c) && (c <=? 57))%N then
        digits_value (10 * acc + (Z.of_N c - 48)) rest
      else None
  end.

Definition parse_id (s : jsstring) : option Z :=
  match s with
  | [] => None
  | _ :: _ => digits_value 0 s
  end.

(** The rows the lookup matches: a malformed identifier matches none. *)
Definition matching_rows (id : jsstring) (db : Database) : list SurgeryRow :=
  match parse_id id with
  | Some n => filter (fun r => surgery_patient r = n) (surgeries db)
  | None => []
  end.

Definition surgery_json (r : SurgeryRow) : jsval :=
  JObj {[ "surgeryType" := JStr (surgeryType r);
          "surgeryYear" := JStr (surgeryYear r);
          "complications" := JStr (complications r) ]}.

Definition not_found_message : jsstring :=
  js "No surgical history found for the provided ID.".

(** Modelled from the spec: the handler behind
    [GET /patient/surgical-history/{id}], which is not among the sources
    (only its integration test is).  It follows section 4.2: a connection
    is acquired, and a failure to get one is an unexpected error, 500; the
    lookup runs; zero matching rows yield 404 with the resource's "not
    found" message (section 8: for a patient without surgeries as for an
    unknown or malformed identifier); otherwise the rows are mapped to the
    API's field names and returned with 200.  [connected] says whether
    the database can be reached. *)
Definition handler (connected : bool) (id : jsstring) (db : Database)
  : Response :=
  if negb connected then
    build (setBody (JSON_stringify_error (Error (js "connection failed") None))
             (addCORSHeaders (js "GET") (setStatusCode 500 createResponse)))
  else
    match matching_rows id db with
    | [] =>
        build (setBody
                 (JSON_stringify (JObj {[ "message" := JStr not_found_message ]}))
                 (addCORSHeaders (js "GET") (setStatusCode 404 createResponse)))
    | rows =>
        build (setBody
                 (JSON_stringify
                    (JObj {[ "patientId" := JStr id;
                             "surgicalEvent" := JBool true;
                             "surgicalEventData" :=
                               JArr (map surgery_json rows) ]}))
                 (addCORSHeaders (js "GET") (setStatusCode 200 createResponse)))
    end.

(** Every recorded surgery belongs to a stored patient. *)
Definition foreign_key (db : Database) : Prop :=
  Forall (fun r => surgery_patient r ∈ patient_ids db) (surgeries db).

(** The three kinds of lookup section 8 speaks of. *)
Definition no_recorded_surgery (id : jsstring) (db : Database) : Prop :=
  exists n, parse_id id = Some n /\ (n ∈ patient_ids db)
            /\ Forall (fun r => surgery_patient r <> n) (surgeries db).

Definition non_existent (id : jsstring) (db : Database) : Prop :=
  exists n, parse_id id = Some n /\ (n ∉ patient_ids db).

Definition malformed (id : jsstring) : Prop := parse_id id = None.

End GetSurgicalHistory.

(** * Properties *)

(** Literals stay folded while a proof simplifies; [vm_compute] evaluates
    them where a concrete run is wanted. *)
Opaque JsString.decode.

Ltac eff_unfold :=
  unfold mbind, mret, eff_bind, eff_ret, outcome_bind, outcome_ret, emit,
    perform, throw, lift_outcome, get_state, modify_state, try_catch,
    try_finally, result_of, state_of, trace_of in *.

(** ** Strings *)

Lemma trim_start_blank (q : jsstring) :
  SearchPatientView.blank q -> JsString.trim_start q = [].
Proof.
  induction 1 as [|c q Hc _ IH]; simpl; [reflexivity|].
  rewrite Hc. exact IH.
Qed.

Lemma trim_blank (q : jsstring) :
  SearchPatientView.blank q -> JsString.trim q = [].
Proof.
  intros Hq. unfold JsString.trim, JsString.trim_end.
  rewrite (trim_start_blank q Hq). reflexivity.
Qed.

Lemma trim_start_head (q : jsstring) :
  match JsString.trim_start q with
  | [] => SearchPatientView.blank q
  | c :: _ => JsString.is_white_space c = false
  end.
Proof.
  induction q as [|c q IH]; simpl.
  - constructor.
  - destruct (JsString.is_white_space c) eqn:Hc; [|exact Hc].
    destruct (JsString.trim_start q); [|exact IH].
    constructor; assumption.
Qed.

Lemma trim_start_app_not_blank (a b : jsstring) (c : N) :
  JsString.is_white_space c = false ->
  JsString.trim_start (a ++ c :: b) <> [].
Proof.
  intros Hc. induction a as [|x a IH]; simpl.
  - rewrite Hc. discriminate.
  - destruct (JsString.is_white_space x); [exact IH | discriminate].
Qed.

(** [trim] leaves nothing exactly when the string is blank. *)
Lemma trim_nil_iff_blank (q : jsstring) :
  JsString.trim q = [] <-> SearchPatientView.blank q.
Proof.
  split; [|apply trim_blank].
  unfold JsString.trim, JsString.trim_end. intros H.
  pose proof (trim_start_head q) as Hh.
  destruct (JsString.trim_start q) as [|c rest] eqn:Hq; [exact Hh|].
  exfalso. apply (f_equal (@rev N)) in H. rewrite rev_involutive in H.
  simpl in H. revert H.
  change (rev rest ++ [c]) with (rev rest ++ c :: []).
  apply trim_start_app_not_blank. exact Hh.
Qed.

(** ** [SearchPatientView] *)

Lemma emptyQuery_iff_blank (s : SearchPatientView.State) :
  SearchPatientView.emptyQuery s = true
  <-> SearchPatientView.blank (SearchPatientView.query s).
Proof.
  unfold SearchPatientView.emptyQuery, JsString.length.
  rewrite <- trim_nil_iff_blank.
  destruct (JsString.trim (SearchPatientView.query s)) as [|c rest]; simpl.
  - split; reflexivity.
  - split; [|discriminate]. intros H. apply Z.leb_le in H. lia.
Qed.

(** C10.  When the query of the rendered view is empty or made of white
    space only, the search button is disabled; and should [searchBtnClick]
    run all the same, it makes no call to [searchPatientsApiCall], leaves
    the list of patients as it was, sets the error message to
    "ERROR: Por favor ingrese algo para buscar!" and returns. *)
Theorem blank_query_never_searched
    (api : SearchPatientView.SearchPatientApiFunction)
    (rendered current : SearchPatientView.State) :
  SearchPatientView.blank (SearchPatientView.query rendered) ->
  SearchPatientView.search_button_disabled rendered = true
  /\ result_of (SearchPatientView.searchBtnClick api rendered current)
       = Return tt
  /\ trace_of (SearchPatientView.searchBtnClick api rendered current) = []
  /\ SearchPatientView.patients
       (state_of (SearchPatientView.searchBtnClick api rendered current))
     = SearchPatientView.patients current
  /\ SearchPatientView.error
       (state_of (SearchPatientView.searchBtnClick api rendered current))
     = js "ERROR: Por favor ingrese algo para buscar!".
Proof.
  intros Hblank. apply emptyQuery_iff_blank in Hblank.
  unfold SearchPatientView.search_button_disabled,
    SearchPatientView.searchBtnClick.
  rewrite Hblank. do 4 (split; [reflexivity|]).
  vm_compute. reflexivity.
Qed.

Lemma blank_query_never_searched_witness :
  let api : SearchPatientView.SearchPatientApiFunction :=
    fun _ _ => Return (DataLayer.ResultOf []) in
  let s := SearchPatientView.mkState (js "  ") (JStr (js "Carnet")) [] [] in
  SearchPatientView.blank (SearchPatientView.query s)
  /\ trace_of (SearchPatientView.searchBtnClick api s s) = [].
Proof.
  intros api s.
  assert (Hb : SearchPatientView.blank (SearchPatientView.query s))
    by (vm_compute; repeat constructor).
  split; [exact Hb|].
  exact (proj1 (proj2 (proj2 (blank_query_never_searched api s s Hb)))).
Defined.

(** A click on an enabled button calls with the rendered query, which is
    not blank. *)
Lemma searchBtnClick_trace api (rendered current : SearchPatientView.State) :
  SearchPatientView.emptyQuery rendered = false ->
  Forall SearchPatientView.call_not_blank
    (trace_of (SearchPatientView.searchBtnClick api rendered current)).
Proof.
  intros Hne.
  assert (Hnb : ~ SearchPatientView.blank (SearchPatientView.query rendered)).
  { intros Hb. apply emptyQuery_iff_blank in Hb. congruence. }
  unfold SearchPatientView.searchBtnClick. rewrite Hne.
  unfold SearchPatientView.showErrorMessage,
    SearchPatientView.hideErrorMessage, SearchPatientView.setError,
    SearchPatientView.setPatients.
  eff_unfold. simpl.
  destruct (api _ _) as [[ps|err]|e]; simpl; repeat case_match;
    simplify_eq/=; repeat constructor; exact Hnb.
Qed.

(** X10.  Whatever the user does to the view (typing a query, choosing a
    search type, clicking the button, in any order and any number of
    times), every call it makes to [searchPatientsApiCall] carries a
    query that is not blank. *)
Lemma run_calls_not_blank api (actions : list SearchPatientView.Action)
    (s : SearchPatientView.State) :
  Forall SearchPatientView.call_not_blank (SearchPatientView.run api actions s).2.
Proof.
  revert s. induction actions as [|a rest IH]; intros s; simpl.
  - constructor.
  - destruct (SearchPatientView.act api a s) as [s1 t1] eqn:Hact.
    specialize (IH s1).
    destruct (SearchPatientView.run api rest s1) as [s2 t2]. simpl in *.
    apply Forall_app. split; [|exact IH].
    destruct a; simpl in Hact.
    + injection Hact as <- <-. constructor.
    + injection Hact as <- <-. constructor.
    + unfold SearchPatientView.search_button_disabled in Hact.
      destruct (SearchPatientView.emptyQuery s) eqn:He.
      * injection Hact as <- <-. constructor.
      * injection Hact as <- <-. apply searchBtnClick_trace. exact He.
Qed.

(** ** The data layer *)

(** The callback either builds the preview of the record or throws; it
    makes no call and touches no state. *)
Lemma to_preview_spec (r : jsval) :
  (exists p, DataLayer.to_preview r tt = (Return p, tt, [])
             /\ DataLayer.preview_of r p)
  \/ (exists e, DataLayer.to_preview r tt = (Throw e, tt, [])
                /\ forall p, ~ DataLayer.preview_of r p).
Proof.
  unfold DataLayer.to_preview, DataLayer.preview_of.
  destruct r as [| |b|n|s|l|o]; eff_unfold; simpl;
    try (right; eexists; split; [reflexivity|];
         intros p (o' & Ho & _); discriminate).
  destruct (truthy (prop o "id")) eqn:Hid; simpl.
  2:{ right. eexists; split; [reflexivity|].
      intros p (o' & Ho & Hid' & _). simplify_eq. congruence. }
  destruct (truthy (prop o "nombres")) eqn:Hn; simpl.
  2:{ right. eexists; split; [reflexivity|].
      intros p (o' & Ho & _ & Hn' & _). simplify_eq. congruence. }
  destruct (truthy (prop o "apellidos")) eqn:Ha; simpl.
  2:{ right. eexists; split; [reflexivity|].
      intros p (o' & Ho & _ & _ & Ha' & _). simplify_eq. congruence. }
  left. eexists; split; [reflexivity|]. exists o. auto.
Qed.

Lemma incomplete_no_preview (r : jsval) (p : DataLayer.PatientPreview) :
  DataLayer.incomplete r -> ~ DataLayer.preview_of r p.
Proof.
  unfold DataLayer.incomplete, DataLayer.lacks, DataLayer.preview_of, prop.
  intros Hinc (o & -> & Hid & Hn & Ha & _).
  destruct Hinc as [(o' & Ho & Hk)|[(o' & Ho & Hk)|(o' & Ho & Hk)]];
    simplify_eq; rewrite Hk in *; discriminate.
Qed.

(** Mapping the callback over the records: all the previews, in order, or
    the first exception. *)
Lemma map_to_preview_spec (records : list jsval) :
  (exists ps, map_eff DataLayer.to_preview records tt = (Return ps, tt, [])
              /\ Forall2 DataLayer.preview_of records ps)
  \/ (exists e, map_eff DataLayer.to_preview records tt = (Throw e, tt, [])
                /\ Exists (fun r => forall p, ~ DataLayer.preview_of r p)
                     records).
Proof.
  induction records as [|r rest IH]; simpl.
  - left. exists []. split; [reflexivity | constructor].
  - destruct (to_preview_spec r) as [(p & Hp & Hpre)|(e & He & Hno)].
    + destruct IH as [(ps & Hps & Hall)|(e & He & Hex)].
      * left. exists (p :: ps). split; [|constructor; assumption].
        unfold mbind, eff_bind at 1. rewrite Hp.
        unfold mbind, eff_bind at 1. rewrite Hps. reflexivity.
      * right. exists e. split; [|apply Exists_cons_tl; assumption].
        unfold mbind, eff_bind at 1. rewrite Hp.
        unfold mbind, eff_bind at 1. rewrite He. reflexivity.
    + right. exists e. split; [|apply Exists_cons_hd; assumption].
      unfold mbind, eff_bind at 1. rewrite He. reflexivity.
Qed.

(** What [searchPatient] returns, case by case: it posts once, and every
    failure ends up in [{error}]. *)
Lemma searchPatient_run (net : DataLayer.Net) (query type : jsval) :
  DataLayer.searchPatient net query type tt =
    (match DataLayer.axios_post net (DataLayer.search_url net)
             (DataLayer.search_body query type) with
     | Return resp =>
         match result_of
                 (DataLayer.data_map (data resp) DataLayer.to_preview tt) with
         | Return ps => Return (DataLayer.ResultOf ps)
         | Throw e => Return (DataLayer.ErrorOf e)
         end
     | Throw e =>
         Return (DataLayer.ErrorOf (Error (js "API ERROR") (Some e)))
     end,
     tt,
     [DataLayer.HttpPost (DataLayer.search_url net)
        (DataLayer.search_body query type)]).
Proof.
  unfold DataLayer.searchPatient, DataLayer.search_url, DataLayer.search_body.
  eff_unfold. simpl.
  destruct (DataLayer.axios_post net _ _) as [resp|e]; simpl; [|reflexivity].
  unfold DataLayer.data_map.
  destruct (data resp) as [| |b|n|s|records|o]; simpl; try reflexivity.
  destruct (map_to_preview_spec records) as [(ps & -> & _)|(e & -> & _)];
    reflexivity.
Qed.

(** C7.  When the server answers a search with an array of records, a
    [{result}] that [searchPatient] returns holds exactly the previews of
    the records, one for each and in order, each with the record's [id]
    and with [names] the record's [nombres] and [apellidos] joined by a
    space; a record that lacks [id], [nombres] or [apellidos] makes the
    whole answer an [{error}]; and records that all have their preview
    do give a [{result}]. *)
Theorem searchPatient_returns_previews (net : DataLayer.Net)
    (query type : jsval) (resp : HttpResponse) (records : list jsval) :
  DataLayer.axios_post net (DataLayer.search_url net)
    (DataLayer.search_body query type) = Return resp ->
  data resp = JArr records ->
  (forall ps,
     result_of (DataLayer.searchPatient net query type tt)
       = Return (DataLayer.ResultOf ps) ->
     Forall2 DataLayer.preview_of records ps)
  /\ (Exists DataLayer.incomplete records ->
      exists e, result_of (DataLayer.searchPatient net query type tt)
                  = Return (DataLayer.ErrorOf e))
  /\ (Forall (fun r => exists p, DataLayer.preview_of r p) records ->
      exists ps, result_of (DataLayer.searchPatient net query type tt)
                   = Return (DataLayer.ResultOf ps)).
Proof.
  intros Hpost Hdata. rewrite searchPatient_run, Hpost, Hdata.
  unfold result_of; simpl.
  destruct (map_to_preview_spec records) as [(ps & -> & Hps)|(e & -> & Hex)];
    simpl.
  - split; [|split].
    + intros ps' [= <-]. exact Hps.
    + intros Hinc. exfalso.
      apply Exists_exists in Hinc as (r & Hr & Hinc).
      destruct (proj1 (list_elem_of_lookup _ _) Hr) as [i Hi].
      destruct (Forall2_lookup_l _ _ _ _ _ Hps Hi) as (p & _ & Hp).
      exact (incomplete_no_preview r p Hinc Hp).
    + intros _. exists ps. reflexivity.
  - split; [|split].
    + intros ps' [=].
    + intros _. exists e. reflexivity.
    + intros Hall. exfalso.
      apply Exists_exists in Hex as (r & Hr & Hno).
      rewrite Forall_forall in Hall.
      destruct (Hall r Hr) as [p Hp]. exact (Hno p Hp).
Qed.

Lemma searchPatient_returns_previews_witness :
  let record :=
    JObj {[ "id" := JNum 7; "nombres" := JStr (js "Ana");
            "apellidos" := JStr (js "Paz") ]} in
  let resp := {| status := 200; data := JArr [record] |} in
  let net :=
    {| DataLayer.BACKEND_URL := None;
       DataLayer.axios_post := fun _ _ => Return resp;
       DataLayer.axios_get := fun _ => Return resp |} in
  Forall2 DataLayer.preview_of [record]
    [ {| DataLayer.id := JNum 7; DataLayer.names := js "Ana Paz" |} ].
Proof.
  intros record resp net.
  apply (proj1 (searchPatient_returns_previews net (JStr (js "Ana"))
                  (JStr (js "Nombres")) resp [record] eq_refl eq_refl)).
  vm_compute. reflexivity.
Defined.

(** One record without [apellidos] among complete ones: the whole answer
    is the error, not the previews that could be built. *)
Example searchPatient_incomplete_record :
  let complete :=
    JObj {[ "id" := JNum 7; "nombres" := JStr (js "Ana");
            "apellidos" := JStr (js "Paz") ]} in
  let partial := JObj {[ "id" := JNum 8; "nombres" := JStr (js "Luis") ]} in
  let resp := {| status := 200; data := JArr [complete; partial] |} in
  let net :=
    {| DataLayer.BACKEND_URL := None;
       DataLayer.axios_post := fun _ _ => Return resp;
       DataLayer.axios_get := fun _ => Return resp |} in
  result_of (DataLayer.searchPatient net (JStr (js "a")) (JStr (js "Nombres")) tt)
  = Return (DataLayer.ErrorOf
              (Error (js "Received patient has no `apellidos`!") None)).
Proof. vm_compute. reflexivity. Qed.

(** A request that fails is an [{error}] with the failure as its cause. *)
Example searchPatient_request_fails :
  let failure := AxiosError (js "Network Error") None true in
  let net :=
    {| DataLayer.BACKEND_URL := None;
       DataLayer.axios_post := fun _ _ => Throw failure;
       DataLayer.axios_get := fun _ => Throw failure |} in
  result_of (DataLayer.searchPatient net (JStr (js "a")) (JStr (js "Carnet")) tt)
  = Return (DataLayer.ErrorOf (Error (js "API ERROR") (Some failure))).
Proof. vm_compute. reflexivity. Qed.

(** An exception of the mapping carries no cause. *)
Lemma to_preview_throw_cause (r : jsval) (e : exn) :
  result_of (DataLayer.to_preview r tt) = Throw e -> exn_cause e = None.
Proof.
  unfold DataLayer.to_preview. eff_unfold.
  destruct r as [| |b|n|s|l|o]; simpl;
    try (intros [= <-]; reflexivity).
  destruct (truthy (prop o "id")); simpl;
    [|intros [= <-]; reflexivity].
  destruct (truthy (prop o "nombres")); simpl;
    [|intros [= <-]; reflexivity].
  destruct (truthy (prop o "apellidos")); simpl;
    [intros [=] | intros [= <-]; reflexivity].
Qed.

Lemma map_to_preview_throw_cause (records : list jsval) (e : exn) :
  result_of (map_eff DataLayer.to_preview records tt) = Throw e ->
  exn_cause e = None.
Proof.
  induction records as [|r rest IH]; simpl; [intros [=]|].
  destruct (to_preview_spec r) as [(p & Hp & _)|(e' & He' & _)].
  - unfold mbind, eff_bind at 1. rewrite Hp.
    destruct (map_to_preview_spec rest) as [(ps & Hps & _)|(e' & He' & _)].
    + unfold mbind, eff_bind at 1. rewrite Hps. intros [=].
    + unfold mbind, eff_bind at 1. rewrite He'. intros [= <-].
      apply IH. rewrite He'. reflexivity.
  - unfold mbind, eff_bind at 1. rewrite He'. intros [= <-].
    apply (to_preview_throw_cause r). rewrite He'. reflexivity.
Qed.

(** [searchPatient] never throws. *)
Lemma searchPatient_total (net : DataLayer.Net) (query type : jsval) :
  exists r, result_of (DataLayer.searchPatient net query type tt) = Return r.
Proof.
  rewrite searchPatient_run. unfold result_of; simpl.
  destruct (DataLayer.axios_post net _ _) as [resp|e]; [|eauto].
  destruct (DataLayer.data_map _ _ _).1.1; eauto.
Qed.


(** What [submitPatientData] does, case by case. *)
Lemma submitPatientData_run (net : DataLayer.Net) (patientData : jsval) :
  result_of (DataLayer.submitPatientData net patientData tt) =
    match DataLayer.patient_request_body patientData with
    | Return body =>
        match DataLayer.axios_post net
                (DataLayer.BASE_URL net ++ js "/patient") body with
        | Return resp => Return (data resp)
        | Throw e =>
            match exn_response e with
            | Some r =>
                match DataLayer.registering_message r with
                | Return m => Throw (Error (to_string m) None)
                | Throw e' => Throw e'
                end
            | None =>
                Throw (Error (if exn_request e
                              then js "No response was received"
                              else js "Error setting up request") None)
            end
        end
    | Throw e => Throw (Error (js "Error setting up request") None)
    end.
Proof.
  unfold DataLayer.submitPatientData. eff_unfold. simpl.
  destruct (DataLayer.patient_request_body patientData) as [body|e] eqn:Hb;
    simpl.
  - destruct (DataLayer.axios_post net _ body) as [resp|e]; simpl;
      [reflexivity|].
    destruct (exn_response e) as [r|]; simpl.
    + destruct (DataLayer.registering_message r); reflexivity.
    + destruct (exn_request e); reflexivity.
  - assert (He : exn_response e = None /\ exn_request e = false).
    { unfold DataLayer.patient_request_body in Hb. eff_unfold.
      destruct patientData; simpl in Hb; simplify_eq; auto. }
    destruct He as [-> ->]. reflexivity.
Qed.


(** An answer of 200 whose body is [null]: [checkCui] throws. *)
Example checkCui_null_body :
  let answer := {| status := 200; data := JNull |} in
  let net :=
    {| DataLayer.BACKEND_URL := None;
       DataLayer.axios_post := fun _ _ => Return answer;
       DataLayer.axios_get := fun _ => Return answer |} in
  result_of (DataLayer.checkCui net (JStr (js "1234567890123")) tt)
  = Throw (Error (js "Error fetching CUI:") None).
Proof. vm_compute. reflexivity. Qed.


(** C9.  Whatever the form data, the request [submitPatientData] posts
    carries [esMujer: "F"] when [sex] is truthy and [esMujer: "M"] only
    when it is falsy; after the 'Masculino' radio button has set [sex] to
    "M", the patient is sent with [esMujer: "F"]. *)
Theorem male_patient_sent_as_female (net : DataLayer.Net)
    (patientData : jsobject) :
  DataLayer.posted_esMujer
    (trace_of (DataLayer.submitPatientData net (JObj patientData) tt))
  = Some (JStr (if truthy (prop patientData "sex") then js "F" else js "M"))
  /\ DataLayer.posted_esMujer
       (trace_of
          (DataLayer.submitPatientData net
             (JObj (PatientForm.onChange patientData
                      PatientForm.MasculinoRadio)) tt))
     = Some (JStr (js "F")).
Proof.
  assert (Hgen : forall pd : jsobject,
    DataLayer.posted_esMujer
      (trace_of (DataLayer.submitPatientData net (JObj pd) tt))
    = Some (JStr (if truthy (prop pd "sex") then js "F" else js "M"))).
  { intros pd. unfold DataLayer.submitPatientData,
      DataLayer.patient_request_body.
    eff_unfold. simpl.
    destruct (DataLayer.axios_post net _ _) as [resp|e]; simpl.
    - reflexivity.
    - destruct (exn_response e) as [r|]; simpl.
      + unfold DataLayer.registering_message. eff_unfold.
        destruct (get_prop (data r) "error"); reflexivity.
      + destruct (exn_request e); reflexivity. }
  split; [apply Hgen|].
  rewrite Hgen. simpl. unfold PatientForm.handleGenderChange, prop.
  rewrite lookup_insert_eq. vm_compute. reflexivity.
Qed.

Example esMujer_of_each_choice :
  let net :=
    {| DataLayer.BACKEND_URL := None;
       DataLayer.axios_post := fun _ _ =>
         Return {| status := 200; data := JNum 1 |};
       DataLayer.axios_get := fun _ =>
         Return {| status := 200; data := JNull |} |} in
  let sent i :=
    DataLayer.posted_esMujer
      (trace_of
         (DataLayer.submitPatientData net
            (JObj (PatientForm.after_inputs JUndefined i)) tt)) in
  sent [PatientForm.FemeninoRadio] = Some (JStr (js "F"))
  /\ sent [PatientForm.MasculinoRadio] = Some (JStr (js "F"))
  /\ sent [] = Some (JStr (js "M")).
Proof. vm_compute. repeat split. Qed.

(** ** The patient form *)

(** No input of the form ever sets [isWoman], the property the gender
    check of [validateFormData] reads: the radio buttons set [sex]. *)
Lemma onChange_isWoman (patientData : jsobject) (i : PatientForm.Input) :
  patientData !! "isWoman" = None ->
  PatientForm.onChange patientData i !! "isWoman" = None.
Proof.
  intros H. destruct i; simpl;
    unfold PatientForm.handleChange, PatientForm.handleGenderChange; simpl;
    rewrite lookup_insert_ne by discriminate; exact H.
Qed.

Lemma after_inputs_isWoman (stateCui : jsval)
    (inputs : list PatientForm.Input) :
  PatientForm.after_inputs stateCui inputs !! "isWoman" = None.
Proof.
  unfold PatientForm.after_inputs.
  assert (H0 : PatientForm.initialPatientData stateCui !! "isWoman" = None).
  { unfold PatientForm.initialPatientData.
    repeat rewrite lookup_insert_ne by discriminate.
    apply lookup_singleton_ne. discriminate. }
  revert H0. generalize (PatientForm.initialPatientData stateCui).
  induction inputs as [|i rest IH]; intros pd Hpd; simpl; [exact Hpd|].
  apply IH, onChange_isWoman, Hpd.
Qed.

(** The two checks that work: a CUI that is a string of another length,
    or an empty required field, stops the submission. *)
Lemma wrong_cui_not_submitted submit (patientData : jsobject) (c : jsstring) :
  prop patientData "cui" = JStr c ->
  JsString.length c <> 13 ->
  PatientForm.submitted
    (trace_of (PatientForm.handleSubmit submit patientData tt)) = false.
Proof.
  intros Hcui Hlen.
  unfold PatientForm.handleSubmit, PatientForm.validateFormData.
  rewrite Hcui. eff_unfold. simpl.
  destruct (JsString.length c =? 13) eqn:E; [apply Z.eqb_eq in E; lia|].
  reflexivity.
Qed.

Lemma empty_field_not_submitted submit (patientData : jsobject)
    (field : string) :
  field ∈ PatientForm.required_fields ->
  truthy (prop patientData field) = false ->
  PatientForm.submitted
    (trace_of (PatientForm.handleSubmit submit patientData tt)) = false.
Proof.
  intros Hin Hempty.
  unfold PatientForm.handleSubmit, PatientForm.validateFormData.
  destruct (find (fun f => negb (truthy (prop patientData f)))
              PatientForm.required_fields) as [f|] eqn:Hfind.
  - eff_unfold.
    destruct (get_prop (prop patientData "cui") "length") as [len|e];
      simpl; [|reflexivity].
    destruct (strict_equal len (JNum 13)); reflexivity.
  - exfalso. apply list_elem_of_In in Hin.
    pose proof (find_none _ _ Hfind field Hin) as Hf. simpl in Hf.
    rewrite Hempty in Hf. discriminate.
Qed.

(** The gender check reads a property the state never has: a form that
    passes the other two checks is submitted, whether or not a gender has
    been selected. *)
Lemma submitted_whatever_the_gender submit (patientData : jsobject) :
  patientData !! "isWoman" = None ->
  PatientForm.cui_has_13_characters patientData = true ->
  PatientForm.required_fields_filled patientData = true ->
  exists rest,
    trace_of (PatientForm.handleSubmit submit patientData tt)
    = PatientForm.SubmitPatientData patientData :: rest.
Proof.
  intros Hw Hcui Hreq.
  unfold PatientForm.cui_has_13_characters in Hcui.
  unfold PatientForm.required_fields_filled, PatientForm.required_fields
    in Hreq.
  simpl in Hreq. apply andb_prop in Hreq as [Hn Hreq].
  apply andb_prop in Hreq as [Hs Hreq]. apply andb_prop in Hreq as [Hb _].
  unfold PatientForm.handleSubmit, PatientForm.validateFormData,
    PatientForm.required_fields.
  destruct (prop patientData "cui") as [| |b|n|c|l|o] eqn:Hc;
    try discriminate.
  eff_unfold. simpl. rewrite Hcui, Hn, Hs, Hb. simpl.
  unfold prop at 1. rewrite Hw. simpl.
  destruct (submit patientData); simpl; eauto.
Qed.

(** C3 at a form filled in without a gender.  The user types a CUI of 13
    digits, the names, the surnames and the birth date, and touches
    neither radio button: no gender is selected, [validateFormData]
    answers [true] without an alert, and [handleSubmit] calls
    [submitPatientData] with the form data. *)
Theorem form_without_gender_is_submitted :
  let patientData :=
    PatientForm.after_inputs JUndefined
      [PatientForm.CuiInput (js "1234567890123");
       PatientForm.NamesInput (js "Ana");
       PatientForm.SurnamesInput (js "Paz");
       PatientForm.BirthDateInput (js "2000-01-01")] in
  PatientForm.gender_selected patientData = false
  /\ PatientForm.validateFormData patientData tt = (Return true, tt, [])
  /\ forall submit,
       PatientForm.submitted
         (trace_of (PatientForm.handleSubmit submit patientData tt)) = true.
Proof.
  intros patientData.
  split; [vm_compute; reflexivity|].
  split; [vm_compute; reflexivity|].
  intros submit.
  destruct (submitted_whatever_the_gender submit patientData)
    as [rest ->]; [apply after_inputs_isWoman | | | ];
    vm_compute; reflexivity.
Qed.

(** ** The student-information handler *)

Lemma strict_equal_string (v : jsval) (s : jsstring) :
  strict_equal v (JStr s) = true <-> v = JStr s.
Proof.
  destruct v; simpl; try (split; [discriminate | intros [=]]).
  unfold JsString.eqb. rewrite bool_decide_eq_true.
  split; [intros ->; reflexivity | intros [= ->]; reflexivity].
Qed.

(** [try] and [catch] together always end in a response: the one the
    [try] block returned, or a 500 carrying the exception it threw.  The
    client is set exactly when [getPgClient] returned one, and nothing
    has released it yet. *)
Lemma try_catch_response (w : GetGeneralStudentInfo.World)
    (event : GetGeneralStudentInfo.LambdaEvent) :
  exists resp t,
    try_catch (GetGeneralStudentInfo.try_block w event)
      (GetGeneralStudentInfo.catch_block w) None
    = (Return resp, GetGeneralStudentInfo.client_after w, t)
    /\ GetGeneralStudentInfo.releases t = 0%nat
    /\ (forall e,
          result_of (GetGeneralStudentInfo.try_block w event None) = Throw e ->
          Backend.statusCode resp = 500
          /\ Backend.body resp = Backend.JSON_stringify_error e)
    /\ (forall r,
          result_of (GetGeneralStudentInfo.try_block w event None) = Return r ->
          resp = r).
Proof.
  unfold GetGeneralStudentInfo.try_block, GetGeneralStudentInfo.catch_block,
    GetGeneralStudentInfo.client_after.
  eff_unfold. simpl.
  destruct (GetGeneralStudentInfo.getPgClient w _) as [c|e]; simpl.
  2:{ do 2 eexists. split; [reflexivity|]. split; [reflexivity|].
      split; [intros ? [= <-]; split; reflexivity | intros ? [=]]. }
  destruct (GetGeneralStudentInfo.connect w) as [[]|e]; simpl.
  2:{ do 2 eexists. split; [reflexivity|]. split; [reflexivity|].
      split; [intros ? [= <-]; split; reflexivity | intros ? [=]]. }
  destruct (get_prop (GetGeneralStudentInfo.pathParameters event) "id")
    as [id|e]; simpl.
  2:{ do 2 eexists. split; [reflexivity|]. split; [reflexivity|].
      split; [intros ? [= <-]; split; reflexivity | intros ? [=]]. }
  destruct (truthy id); simpl.
  2:{ do 2 eexists. split; [reflexivity|]. split; [reflexivity|].
      split; [intros ? [=] | intros ? [= <-]; reflexivity]. }
  destruct (GetGeneralStudentInfo.query w _ _) as [dbResponse|e]; simpl.
  2:{ do 2 eexists. split; [reflexivity|]. split; [reflexivity|].
      split; [intros ? [= <-]; split; reflexivity | intros ? [=]]. }
  destruct (strict_equal _ _); simpl.
  { do 2 eexists. split; [reflexivity|]. split; [reflexivity|].
    split; [intros ? [=] | intros ? [= <-]; reflexivity]. }
  destruct (GetGeneralStudentInfo.mapToAPIStudentInfo w _) as [info|e]; simpl.
  - do 2 eexists. split; [reflexivity|]. split; [reflexivity|].
    split; [intros ? [=] | intros ? [= <-]; reflexivity].
  - do 2 eexists. split; [reflexivity|]. split; [reflexivity|].
    split; [intros ? [= <-]; split; reflexivity | intros ? [=]].
Qed.

(** An invocation that reaches the [try] block, spelled out: the response
    of [try]/[catch], then the [finally] block. *)
Lemma invoke_get (w : GetGeneralStudentInfo.World)
    (event : GetGeneralStudentInfo.LambdaEvent) :
  GetGeneralStudentInfo.enters_try w event ->
  exists resp t,
    try_catch (GetGeneralStudentInfo.try_block w event)
      (GetGeneralStudentInfo.catch_block w) None
    = (Return resp, GetGeneralStudentInfo.client_after w, t)
    /\ GetGeneralStudentInfo.releases t = 0%nat
    /\ GetGeneralStudentInfo.invoke w event =
         match GetGeneralStudentInfo.client_after w with
         | Some _ =>
             (match GetGeneralStudentInfo.client_end w with
              | Return _ => Return resp
              | Throw e => Throw e
              end,
              GetGeneralStudentInfo.client_after w,
              GetGeneralStudentInfo.WithRequest
                :: t ++ [GetGeneralStudentInfo.End_])
         | None =>
             (Return resp, None, GetGeneralStudentInfo.WithRequest :: t ++ [])
         end.
Proof.
  intros [Hwr Hget].
  destruct (try_catch_response w event) as (resp & t & Htc & Hrel & _).
  exists resp, t. split; [exact Htc|]. split; [exact Hrel|].
  unfold GetGeneralStudentInfo.invoke, GetGeneralStudentInfo.handler.
  rewrite Hget.
  replace (strict_equal (JStr (js "GET")) (JStr (js "GET"))) with true
    by (symmetry; apply strict_equal_string; reflexivity).
  unfold mbind at 1, eff_bind at 1, perform at 1. rewrite Hwr. simpl.
  unfold try_finally. rewrite Htc.
  unfold GetGeneralStudentInfo.finally_block.
  unfold mbind, eff_bind, get_state, perform, mret, eff_ret.
  destruct (GetGeneralStudentInfo.client_after w) as [c|]; [|reflexivity].
  destruct (GetGeneralStudentInfo.client_end w); reflexivity.
Qed.

Lemma releases_app (t1 t2 : list GetGeneralStudentInfo.Event) :
  GetGeneralStudentInfo.releases (t1 ++ t2)
  = (GetGeneralStudentInfo.releases t1
     + GetGeneralStudentInfo.releases t2)%nat.
Proof.
  unfold GetGeneralStudentInfo.releases.
  rewrite filter_app, length_app. reflexivity.
Qed.

(** C8.  On every execution that enters the [try] block, a client that
    was created is released exactly once, by the last call the handler
    makes, whichever way the [try] block ended; when no client could be
    created there is nothing to release and nothing is. *)
Theorem connection_released_once (w : GetGeneralStudentInfo.World)
    (event : GetGeneralStudentInfo.LambdaEvent) :
  GetGeneralStudentInfo.enters_try w event ->
  (forall c,
     GetGeneralStudentInfo.getPgClient w (GetGeneralStudentInfo.POSTGRES_URL w)
       = Return c ->
     GetGeneralStudentInfo.releases
       (trace_of (GetGeneralStudentInfo.invoke w event)) = 1%nat
     /\ last (trace_of (GetGeneralStudentInfo.invoke w event))
        = Some GetGeneralStudentInfo.End_)
  /\ (forall e,
        GetGeneralStudentInfo.getPgClient w
          (GetGeneralStudentInfo.POSTGRES_URL w) = Throw e ->
        GetGeneralStudentInfo.releases
          (trace_of (GetGeneralStudentInfo.invoke w event)) = 0%nat).
Proof.
  intros Henter.
  destruct (invoke_get w event Henter) as (resp & t & _ & Hrel & ->).
  unfold GetGeneralStudentInfo.client_after. split.
  - intros c ->. unfold trace_of; simpl. split.
    + change (GetGeneralStudentInfo.WithRequest
                :: t ++ [GetGeneralStudentInfo.End_])
        with ([GetGeneralStudentInfo.WithRequest]
                ++ t ++ [GetGeneralStudentInfo.End_]).
      rewrite !releases_app, Hrel. reflexivity.
    + change (GetGeneralStudentInfo.WithRequest
                :: t ++ [GetGeneralStudentInfo.End_])
        with ((GetGeneralStudentInfo.WithRequest :: t)
                ++ [GetGeneralStudentInfo.End_]).
      apply last_snoc.
  - intros e ->. unfold trace_of; simpl.
    rewrite app_nil_r.
    change (GetGeneralStudentInfo.WithRequest :: t)
      with ([GetGeneralStudentInfo.WithRequest] ++ t).
    rewrite releases_app, Hrel. reflexivity.
Qed.

Lemma connection_released_once_witness :
  let w := GetGeneralStudentInfo.example_world (Return tt) in
  let event := GetGeneralStudentInfo.get_event (JStr (js "1")) in
  GetGeneralStudentInfo.enters_try w event
  /\ GetGeneralStudentInfo.releases
       (trace_of (GetGeneralStudentInfo.invoke w event)) = 1%nat.
Proof.
  intros w event.
  assert (H : GetGeneralStudentInfo.enters_try w event)
    by (split; reflexivity).
  split; [exact H|].
  exact (proj1 (proj1 (connection_released_once w event H)
                  (GetGeneralStudentInfo.pgClient JUndefined) eq_refl)).
Defined.

(** The four ways out of the [try] block, each with its one release. *)
Example released_on_success :
  let r := GetGeneralStudentInfo.invoke
             (GetGeneralStudentInfo.example_world (Return tt))
             (GetGeneralStudentInfo.get_event (JStr (js "1"))) in
  Backend.statusCode <$> result_of r = Return 200
  /\ GetGeneralStudentInfo.releases (trace_of r) = 1%nat.
Proof. vm_compute. split; reflexivity. Qed.

Example released_on_400 :
  let r := GetGeneralStudentInfo.invoke
             (GetGeneralStudentInfo.example_world (Return tt))
             (GetGeneralStudentInfo.get_event JUndefined) in
  Backend.statusCode <$> result_of r = Return 400
  /\ GetGeneralStudentInfo.releases (trace_of r) = 1%nat.
Proof. vm_compute. split; reflexivity. Qed.

Example released_on_404 :
  let r := GetGeneralStudentInfo.invoke
             (GetGeneralStudentInfo.example_world (Return tt))
             (GetGeneralStudentInfo.get_event (JStr (js "2"))) in
  Backend.statusCode <$> result_of r = Return 404
  /\ GetGeneralStudentInfo.releases (trace_of r) = 1%nat.
Proof. vm_compute. split; reflexivity. Qed.

Example released_on_500 :
  let r := GetGeneralStudentInfo.invoke
             (GetGeneralStudentInfo.example_world
                (Throw (Error (js "ECONNREFUSED") None)))
             (GetGeneralStudentInfo.get_event (JStr (js "1"))) in
  Backend.statusCode <$> result_of r = Return 500
  /\ GetGeneralStudentInfo.releases (trace_of r) = 1%nat.
Proof. vm_compute. split; reflexivity. Qed.

(** C1, as the code has it.  With [withRequest] done: for a method other
    than GET the handler throws its [Error] before it touches the
    database, and the invocation ends with that exception; for GET, and
    when releasing the client does not itself throw, the invocation ends
    with a response, and every exception raised inside the [try] block
    has become a 500 whose body is the serialized exception. *)
Theorem handler_exceptions (w : GetGeneralStudentInfo.World)
    (event : GetGeneralStudentInfo.LambdaEvent) :
  GetGeneralStudentInfo.withRequest w = Return tt ->
  (GetGeneralStudentInfo.httpMethod event <> JStr (js "GET") ->
   GetGeneralStudentInfo.invoke w event
   = (Throw (Error (js "/patient/student/{id} only accepts GET method, you tried: "
                      ++ to_string (GetGeneralStudentInfo.httpMethod event))
               None),
      None, [GetGeneralStudentInfo.WithRequest]))
  /\ (GetGeneralStudentInfo.httpMethod event = JStr (js "GET") ->
      (forall c,
         GetGeneralStudentInfo.getPgClient w
           (GetGeneralStudentInfo.POSTGRES_URL w) = Return c ->
         GetGeneralStudentInfo.client_end w = Return tt) ->
      exists resp,
        result_of (GetGeneralStudentInfo.invoke w event) = Return resp
        /\ (forall e,
              result_of (GetGeneralStudentInfo.try_block w event None)
                = Throw e ->
              Backend.statusCode resp = 500
              /\ Backend.body resp = Backend.JSON_stringify_error e)).
Proof.
  intros Hwr. split.
  - intros Hne.
    unfold GetGeneralStudentInfo.invoke, GetGeneralStudentInfo.handler.
    destruct (strict_equal _ (JStr (js "GET"))) eqn:Heq.
    { apply strict_equal_string in Heq. contradiction. }
    unfold mbind, eff_bind, perform, throw. rewrite Hwr. reflexivity.
  - intros Hget Hend.
    destruct (try_catch_response w event) as (resp & t & Htc & _ & H500 & _).
    destruct (invoke_get w event (conj Hwr Hget))
      as (resp' & t' & Htc' & _ & ->).
    rewrite Htc in Htc'. injection Htc' as <- <-.
    exists resp. split; [|exact H500].
    unfold GetGeneralStudentInfo.client_after in *.
    destruct (GetGeneralStudentInfo.getPgClient w _) as [c|e] eqn:Hc;
      [|reflexivity].
    rewrite (Hend c eq_refl). reflexivity.
Qed.

Lemma handler_exceptions_witness :
  let w := GetGeneralStudentInfo.example_world
             (Throw (Error (js "ECONNREFUSED") None)) in
  let event := GetGeneralStudentInfo.get_event (JStr (js "1")) in
  exists resp,
    result_of (GetGeneralStudentInfo.invoke w event) = Return resp
    /\ Backend.statusCode resp = 500.
Proof.
  intros w event.
  destruct (proj2 (handler_exceptions w event eq_refl) eq_refl
              (fun _ _ => eq_refl))
    as (resp & Hresp & H500).
  exists resp. split; [exact Hresp|].
  exact (proj1 (H500 (Error (js "ECONNREFUSED") None) eq_refl)).
Defined.

(** C1, as stated, fails: a POST event ends the invocation with an
    exception, not with a response. *)
Lemma post_event_is_not_answered :
  let w := GetGeneralStudentInfo.example_world (Return tt) in
  let event :=
    {| GetGeneralStudentInfo.httpMethod := JStr (js "POST");
       GetGeneralStudentInfo.pathParameters :=
         JObj {[ "id" := JStr (js "1") ]} |} in
  GetGeneralStudentInfo.httpMethod event <> JStr (js "GET")
  /\ result_of (GetGeneralStudentInfo.invoke w event)
     = Throw (Error (js "/patient/student/{id} only accepts GET method, you tried: POST")
                None)
  /\ ~ exists resp,
         result_of (GetGeneralStudentInfo.invoke w event) = Return resp.
Proof.
  intros w event.
  assert (Hr : result_of (GetGeneralStudentInfo.invoke w event)
               = Throw (Error (js "/patient/student/{id} only accepts GET method, you tried: POST")
                          None))
    by (vm_compute; reflexivity).
  split; [|split].
  - vm_compute. discriminate.
  - exact Hr.
  - intros [resp Hresp]. rewrite Hr in Hresp. discriminate.
Qed.

(** ** The patient-creation endpoint *)

Lemma cui_stored_iff (c : jsstring) (table : list CreatePatient.PatientRow) :
  CreatePatient.cui_stored c table = true
  <-> exists row, row ∈ table /\ CreatePatient.row_cui row = c.
Proof.
  unfold CreatePatient.cui_stored. rewrite existsb_exists.
  split; intros (row & Hin & Hc); exists row.
  - unfold JsString.eqb in Hc. apply bool_decide_eq_true in Hc.
    split; [apply list_elem_of_In; exact Hin | exact Hc].
  - split; [apply list_elem_of_In; exact Hin|].
    unfold JsString.eqb. apply bool_decide_eq_true. exact Hc.
Qed.

(** C4.  A creation payload without a national ID is answered with 400
    and the error "CUI es requerido."; nothing is stored. *)
Theorem missing_cui_is_rejected (connected : bool)
    (payload : CreatePatient.Payload)
    (table : list CreatePatient.PatientRow) :
  CreatePatient.cui payload = None ->
  Backend.statusCode (CreatePatient.handler connected payload table).1 = 400
  /\ Backend.body_error (CreatePatient.handler connected payload table).1
     = Some (js "CUI es requerido.")
  /\ (CreatePatient.handler connected payload table).2 = table.
Proof.
  intros Hcui. unfold CreatePatient.handler. rewrite Hcui.
  split; [reflexivity|]. split; [|reflexivity].
  unfold Backend.body_error, CreatePatient.error_response; simpl.
  rewrite lookup_singleton_eq. reflexivity.
Qed.

Lemma missing_cui_is_rejected_witness :
  let payload :=
    {| CreatePatient.cui := None;
       CreatePatient.nombres := js "Juan";
       CreatePatient.apellidos := js "Pérez";
       CreatePatient.esMujer := false;
       CreatePatient.fechaNacimiento := js "1990-01-01" |} in
  Backend.statusCode (CreatePatient.handler true payload []).1 = 400.
Proof.
  intros payload.
  exact (proj1 (missing_cui_is_rejected true payload [] eq_refl)).
Defined.

(** C5.  With the database reachable, a creation payload whose national
    ID is the one of a stored patient is answered with 409 and the error
    "CUI ya existe."; the table is left as it was, so no second record of
    that national ID comes to exist. *)
Theorem duplicate_cui_is_rejected (payload : CreatePatient.Payload)
    (table : list CreatePatient.PatientRow) (c : jsstring)
    (stored : CreatePatient.PatientRow) :
  CreatePatient.cui payload = Some c ->
  stored ∈ table ->
  CreatePatient.row_cui stored = c ->
  Backend.statusCode (CreatePatient.handler true payload table).1 = 409
  /\ Backend.body_error (CreatePatient.handler true payload table).1
     = Some (js "CUI ya existe.")
  /\ (CreatePatient.handler true payload table).2 = table.
Proof.
  intros Hcui Hin Hc. unfold CreatePatient.handler. rewrite Hcui. simpl.
  replace (CreatePatient.cui_stored c table) with true
    by (symmetry; apply cui_stored_iff; eauto).
  split; [reflexivity|]. split; [|reflexivity].
  unfold Backend.body_error, CreatePatient.error_response; simpl.
  rewrite lookup_singleton_eq. reflexivity.
Qed.

Lemma duplicate_cui_is_rejected_witness :
  let first :=
    {| CreatePatient.cui := Some (js "2987944380208");
       CreatePatient.nombres := js "Juan";
       CreatePatient.apellidos := js "Pérez";
       CreatePatient.esMujer := false;
       CreatePatient.fechaNacimiento := js "1990-01-01" |} in
  let second :=
    {| CreatePatient.cui := Some (js "2987944380208");
       CreatePatient.nombres := js "Carlos";
       CreatePatient.apellidos := js "González";
       CreatePatient.esMujer := false;
       CreatePatient.fechaNacimiento := js "1985-05-05" |} in
  let table := (CreatePatient.handler true first []).2 in
  Backend.statusCode (CreatePatient.handler true second table).1 = 409
  /\ (CreatePatient.handler true second table).2 = table.
Proof.
  intros first second table.
  assert (Hin : {| CreatePatient.row_id := 1;
                   CreatePatient.row_cui := js "2987944380208";
                   CreatePatient.row_nombres := js "Juan";
                   CreatePatient.row_apellidos := js "Pérez";
                   CreatePatient.row_esMujer := false;
                   CreatePatient.row_fechaNacimiento := js "1990-01-01" |}
                ∈ table) by (apply list_elem_of_singleton; reflexivity).
  destruct (duplicate_cui_is_rejected second table _ _ eq_refl Hin eq_refl)
    as (H409 & _ & Hsame).
  split; [exact H409 | exact Hsame].
Defined.

(** The national ID stays unique among the stored patients. *)
Lemma cui_stays_unique (connected : bool) (payload : CreatePatient.Payload)
    (table : list CreatePatient.PatientRow) :
  NoDup (map CreatePatient.row_cui table) ->
  NoDup (map CreatePatient.row_cui
           (CreatePatient.handler connected payload table).2).
Proof.
  intros Hnd. unfold CreatePatient.handler.
  destruct (CreatePatient.cui payload) as [c|]; [|exact Hnd].
  destruct connected; simpl; [|exact Hnd].
  destruct (CreatePatient.cui_stored c table) eqn:Hst; simpl; [exact Hnd|].
  rewrite map_app. simpl. apply NoDup_app. split; [exact Hnd|].
  split; [|apply NoDup_singleton].
  intros x Hx Hx'. apply list_elem_of_singleton in Hx'. subst x.
  apply list_elem_of_fmap in Hx as (row & Hrow & Hin).
  assert (CreatePatient.cui_stored c table = true)
    by (apply cui_stored_iff; eauto).
  congruence.
Qed.

(** ** The surgical-history endpoint *)

Lemma no_matching_rows (n : Z) (rows : list GetSurgicalHistory.SurgeryRow) :
  Forall (fun r => GetSurgicalHistory.surgery_patient r <> n) rows ->
  filter (fun r => GetSurgicalHistory.surgery_patient r = n) rows = [].
Proof.
  induction 1 as [|r rows Hr _ IH]; [reflexivity|].
  rewrite filter_cons_False by exact Hr. exact IH.
Qed.

Lemma not_found_response (id : jsstring) (db : GetSurgicalHistory.Database) :
  GetSurgicalHistory.matching_rows id db = [] ->
  Backend.statusCode (GetSurgicalHistory.handler true id db) = 404
  /\ Backend.body_message (GetSurgicalHistory.handler true id db)
     = Some GetSurgicalHistory.not_found_message.
Proof.
  intros Hrows. unfold GetSurgicalHistory.handler. rewrite Hrows. simpl.
  split; [reflexivity|].
  unfold Backend.body_message; simpl.
  rewrite lookup_singleton_eq. reflexivity.
Qed.

(** C6.  With the database reachable and every recorded surgery belonging
    to a stored patient, a lookup for a patient without recorded
    surgeries, for an identifier no patient has, or for a malformed
    identifier is answered with 404 and the message
    "No surgical history found for the provided ID.". *)
Theorem no_surgical_history_is_404 (id : jsstring)
    (db : GetSurgicalHistory.Database) :
  GetSurgicalHistory.foreign_key db ->
  GetSurgicalHistory.no_recorded_surgery id db
  \/ GetSurgicalHistory.non_existent id db
  \/ GetSurgicalHistory.malformed id ->
  Backend.statusCode (GetSurgicalHistory.handler true id db) = 404
  /\ Backend.body_message (GetSurgicalHistory.handler true id db)
     = Some (js "No surgical history found for the provided ID.").
Proof.
  intros Hfk Hcase. apply not_found_response.
  unfold GetSurgicalHistory.matching_rows.
  destruct Hcase as [(n & -> & _ & Hnone) | [(n & -> & Hnot) | Hmal]].
  - apply no_matching_rows. exact Hnone.
  - apply no_matching_rows.
    unfold GetSurgicalHistory.foreign_key in Hfk.
    eapply Forall_impl; [exact Hfk|].
    intros r Hr Heq. apply Hnot. rewrite <- Heq. exact Hr.
  - unfold GetSurgicalHistory.malformed in Hmal. rewrite Hmal. reflexivity.
Qed.

Lemma no_surgical_history_is_404_witness :
  let db :=
    {| GetSurgicalHistory.patient_ids := [1; 2];
       GetSurgicalHistory.surgeries :=
         [ {| GetSurgicalHistory.surgery_patient := 1;
              GetSurgicalHistory.surgeryType := js "Appendectomy";
              GetSurgicalHistory.surgeryYear := js "2023";
              GetSurgicalHistory.complications := js "None" |} ] |} in
  Backend.statusCode (GetSurgicalHistory.handler true (js "2") db) = 404
  /\ Backend.statusCode (GetSurgicalHistory.handler true (js "999999") db)
     = 404
  /\ Backend.statusCode (GetSurgicalHistory.handler true (js "abc") db)
     = 404.
Proof.
  intros db.
  assert (Hfk : GetSurgicalHistory.foreign_key db).
  { repeat constructor. }
  split; [|split].
  - apply (no_surgical_history_is_404 (js "2") db Hfk).
    left. exists 2. split; [vm_compute; reflexivity|].
    split; [set_solver|]. repeat constructor. discriminate.
  - apply (no_surgical_history_is_404 (js "999999") db Hfk).
    right; left. exists 999999. split; [vm_compute; reflexivity|].
    intros Hin. apply elem_of_cons in Hin as [?|Hin]; [discriminate|].
    apply elem_of_cons in Hin as [?|Hin]; [discriminate|].
    apply elem_of_nil in Hin. exact Hin.
  - apply (no_surgical_history_is_404 (js "abc") db Hfk).
    right; right. vm_compute. reflexivity.
Defined.

(** A patient with a recorded surgery gets it back. *)
Example surgical_history_found :
  let db :=
    {| GetSurgicalHistory.patient_ids := [1; 2];
       GetSurgicalHistory.surgeries :=
         [ {| GetSurgicalHistory.surgery_patient := 1;
              GetSurgicalHistory.surgeryType := js "Appendectomy";
              GetSurgicalHistory.surgeryYear := js "2023";
              GetSurgicalHistory.complications := js "None" |} ] |} in
  Backend.statusCode (GetSurgicalHistory.handler true (js "1") db) = 200.
Proof. vm_compute. reflexivity. Qed.

(** * Further properties of the sources *)

(** ** The data layer, beyond the contract *)

(** X1.  Whatever the server does, and whatever the answer looks like,
    [searchPatient] makes one request and one only: a POST of
    [{requestSearch, searchType}] to [/patient/search] under the base
    URL. *)
Theorem searchPatient_posts_once (net : DataLayer.Net) (query type : jsval) :
  trace_of (DataLayer.searchPatient net query type tt)
  = [DataLayer.HttpPost (DataLayer.BASE_URL net ++ js "/patient/search")
       (JObj {[ "requestSearch" := query; "searchType" := type ]})].
Proof. rewrite searchPatient_run. reflexivity. Qed.

(** X2.  The [{error}] of [searchPatient] tells the two kinds of failure
    apart: it carries a [cause] exactly when the request itself failed,
    and the cause is then what [axios] threw; an answer that arrived but
    is not an array of complete records gives an error without cause. *)
Theorem searchPatient_error_cause (net : DataLayer.Net) (query type : jsval)
    (err : exn) :
  result_of (DataLayer.searchPatient net query type tt)
    = Return (DataLayer.ErrorOf err) ->
  match DataLayer.axios_post net (DataLayer.search_url net)
          (DataLayer.search_body query type) with
  | Throw e => err = Error (js "API ERROR") (Some e)
  | Return _ => exn_cause err = None
  end.
Proof.
  rewrite searchPatient_run. unfold result_of at 1; simpl.
  destruct (DataLayer.axios_post net _ _) as [resp|e].
  - destruct (result_of (DataLayer.data_map (data resp) _ tt)) as [ps|e]
      eqn:Hmap; intros [= <-].
    unfold DataLayer.data_map in Hmap.
    destruct (data resp); try (injection Hmap as <-; reflexivity).
    apply (map_to_preview_throw_cause _ _ Hmap).
  - intros [= <-]. reflexivity.
Qed.

Lemma searchPatient_error_cause_witness :
  let failure := AxiosError (js "Network Error") None true in
  let net :=
    {| DataLayer.BACKEND_URL := None;
       DataLayer.axios_post := fun _ _ => Throw failure;
       DataLayer.axios_get := fun _ => Throw failure |} in
  let err := Error (js "API ERROR") (Some failure) in
  result_of (DataLayer.searchPatient net (JStr (js "a")) (JStr (js "Carnet")) tt)
    = Return (DataLayer.ErrorOf err)
  /\ exn_cause err = Some failure.
Proof.
  intros failure net err.
  assert (H : result_of (DataLayer.searchPatient net (JStr (js "a"))
                           (JStr (js "Carnet")) tt)
              = Return (DataLayer.ErrorOf err)) by (vm_compute; reflexivity).
  split; [exact H|].
  exact (f_equal exn_cause
           (searchPatient_error_cause net (JStr (js "a")) (JStr (js "Carnet"))
              err H)).
Defined.

(** X3.  When the server rejects the registration, answering with a body
    that is an object, [submitPatientData] throws an [Error] whose
    message is the [error] of that body, or "Error registering
    information" when the body has none (or an empty one). *)
Theorem submitPatientData_server_error (net : DataLayer.Net)
    (patientData body : jsval) (message : jsstring) (code : Z)
    (answer : jsobject) (request : bool) :
  DataLayer.patient_request_body patientData = Return body ->
  DataLayer.axios_post net (DataLayer.BASE_URL net ++ js "/patient") body
    = Throw (AxiosError message
               (Some {| status := code; data := JObj answer |}) request) ->
  result_of (DataLayer.submitPatientData net patientData tt)
  = Throw (Error (if truthy (prop answer "error")
                  then to_string (prop answer "error")
                  else js "Error registering information") None).
Proof.
  intros Hbody Hpost. rewrite submitPatientData_run, Hbody, Hpost. simpl.
  unfold DataLayer.registering_message. eff_unfold. simpl.
  destruct (truthy (prop answer "error")); reflexivity.
Qed.

Lemma submitPatientData_server_error_witness :
  let answer : jsobject := {[ "error" := JStr (js "CUI ya existe.") ]} in
  let failure :=
    AxiosError (js "Request failed with status code 409")
      (Some {| status := 409; data := JObj answer |}) true in
  let net :=
    {| DataLayer.BACKEND_URL := None;
       DataLayer.axios_post := fun _ _ => Throw failure;
       DataLayer.axios_get := fun _ => Throw failure |} in
  result_of
    (DataLayer.submitPatientData net
       (JObj (PatientForm.initialPatientData (JStr (js "2987944380208")))) tt)
  = Throw (Error (js "CUI ya existe.") None).
Proof.
  intros answer failure net.
  rewrite (submitPatientData_server_error net
             (JObj (PatientForm.initialPatientData
                      (JStr (js "2987944380208"))))
             _ _ 409 answer true eq_refl eq_refl).
  vm_compute. reflexivity.
Defined.

(** X4.  When the request got no response, [submitPatientData] throws
    "No response was received" if the request had been made and "Error
    setting up request" otherwise. *)
Theorem submitPatientData_no_response (net : DataLayer.Net)
    (patientData body : jsval) (e : exn) :
  DataLayer.patient_request_body patientData = Return body ->
  DataLayer.axios_post net (DataLayer.BASE_URL net ++ js "/patient") body
    = Throw e ->
  exn_response e = None ->
  result_of (DataLayer.submitPatientData net patientData tt)
  = Throw (Error (if exn_request e then js "No response was received"
                  else js "Error setting up request") None).
Proof.
  intros Hbody Hpost Hresp.
  rewrite submitPatientData_run, Hbody, Hpost, Hresp. reflexivity.
Qed.

Lemma submitPatientData_no_response_witness :
  let failure := AxiosError (js "Network Error") None true in
  let net :=
    {| DataLayer.BACKEND_URL := None;
       DataLayer.axios_post := fun _ _ => Throw failure;
       DataLayer.axios_get := fun _ => Throw failure |} in
  result_of
    (DataLayer.submitPatientData net
       (JObj (PatientForm.initialPatientData JUndefined)) tt)
  = Throw (Error (js "No response was received") None).
Proof.
  intros failure net.
  exact (submitPatientData_no_response net
           (JObj (PatientForm.initialPatientData JUndefined)) _ failure
           eq_refl eq_refl eq_refl).
Defined.

(** X5.  Handed [undefined] or [null] for the patient data,
    [submitPatientData] sends nothing and throws "Error setting up
    request". *)
Theorem submitPatientData_without_data (net : DataLayer.Net)
    (patientData : jsval) :
  patientData = JUndefined \/ patientData = JNull ->
  DataLayer.submitPatientData net patientData tt
  = (Throw (Error (js "Error setting up request") None), tt, []).
Proof.
  intros [-> | ->]; reflexivity.
Qed.

Lemma submitPatientData_without_data_witness :
  let net :=
    {| DataLayer.BACKEND_URL := None;
       DataLayer.axios_post := fun _ _ =>
         Return {| status := 200; data := JNum 1 |};
       DataLayer.axios_get := fun _ =>
         Return {| status := 200; data := JNull |} |} in
  trace_of (DataLayer.submitPatientData net JNull tt) = [].
Proof.
  intros net.
  rewrite (submitPatientData_without_data net JNull (or_intror eq_refl)).
  reflexivity.
Defined.

(** X6.  An error response without a body escapes the documented
    messages: when the [data] of the response is [null] or [undefined],
    reading its [error] throws, and [submitPatientData] ends with that
    [TypeError]. *)
Theorem submitPatientData_empty_error_body (net : DataLayer.Net)
    (patientData body : jsval) (message : jsstring) (code : Z)
    (answer : jsval) (request : bool) :
  DataLayer.patient_request_body patientData = Return body ->
  DataLayer.axios_post net (DataLayer.BASE_URL net ++ js "/patient") body
    = Throw (AxiosError message
               (Some {| status := code; data := answer |}) request) ->
  answer = JUndefined \/ answer = JNull ->
  exists m,
    result_of (DataLayer.submitPatientData net patientData tt)
    = Throw (TypeError m).
Proof.
  intros Hbody Hpost Hanswer.
  rewrite submitPatientData_run, Hbody, Hpost. simpl.
  destruct Hanswer as [-> | ->]; eexists; reflexivity.
Qed.

Lemma submitPatientData_empty_error_body_witness :
  let failure :=
    AxiosError (js "Request failed with status code 502")
      (Some {| status := 502; data := JNull |}) true in
  let net :=
    {| DataLayer.BACKEND_URL := None;
       DataLayer.axios_post := fun _ _ => Throw failure;
       DataLayer.axios_get := fun _ => Throw failure |} in
  exists m,
    result_of
      (DataLayer.submitPatientData net
         (JObj (PatientForm.initialPatientData JUndefined)) tt)
    = Throw (TypeError m).
Proof.
  intros failure net.
  exact (submitPatientData_empty_error_body net
           (JObj (PatientForm.initialPatientData JUndefined)) _ _ 502 JNull
           true eq_refl eq_refl (or_intror eq_refl)).
Defined.

(** ** [SearchPatientView] on top of [searchPatient] *)

Lemma preview_of_unique (r : jsval) (p p' : DataLayer.PatientPreview) :
  DataLayer.preview_of r p -> DataLayer.preview_of r p' -> p = p'.
Proof.
  intros (o & -> & _ & _ & _ & ->) (o' & [= <-] & _ & _ & _ & ->).
  reflexivity.
Qed.

Lemma previews_unique (records : list jsval)
    (ps ps' : list DataLayer.PatientPreview) :
  Forall2 DataLayer.preview_of records ps ->
  Forall2 DataLayer.preview_of records ps' -> ps = ps'.
Proof.
  intros H. revert ps'.
  induction H as [|r p records ps Hp _ IH]; intros ps' H'.
  - inversion H'. reflexivity.
  - inversion H' as [|r' p' records' ps'' Hp' Hrest]; subst.
    f_equal; [exact (preview_of_unique r p p' Hp Hp') | apply IH, Hrest].
Qed.

(** What the wired-up call returns once the server has answered. *)
Lemma wired_search_answer (net : DataLayer.Net) (query : jsstring)
    (type : jsval) (resp : HttpResponse) :
  DataLayer.axios_post net (DataLayer.search_url net)
    (DataLayer.search_body (JStr query) type) = Return resp ->
  App.searchPatientsApiCall net query type
  = match result_of
            (DataLayer.data_map (data resp) DataLayer.to_preview tt) with
    | Return ps => Return (DataLayer.ResultOf ps)
    | Throw e => Return (DataLayer.ErrorOf e)
    end.
Proof.
  intros Hpost. unfold App.searchPatientsApiCall.
  rewrite searchPatient_run, Hpost. reflexivity.
Qed.

(** The state a click leaves, given what the injected call returned. *)
Lemma searchBtnClick_state api (rendered current : SearchPatientView.State)
    (answer : DataLayer.Result (list DataLayer.PatientPreview) exn) :
  SearchPatientView.emptyQuery rendered = false ->
  api (SearchPatientView.query rendered) (SearchPatientView.type rendered)
    = Return answer ->
  let after := state_of (SearchPatientView.searchBtnClick api rendered current) in
  match answer with
  | DataLayer.ResultOf ps =>
      SearchPatientView.patients after = ps
      /\ SearchPatientView.error after = []
  | DataLayer.ErrorOf err =>
      SearchPatientView.patients after = SearchPatientView.patients current
      /\ SearchPatientView.error after
         = js "ERROR: "
             ++ match exn_cause err with
                | Some cause =>
                    if SearchPatientView.status_below_500 (exn_response cause)
                    then js "Búsqueda incorrecta, por favor ingresa todos los parámetros!"
                    else js "Ha ocurrido un error interno, lo sentimos."
                | None => js "The API has changed!"
                end
  end.
Proof.
  intros Hne Hapi. unfold SearchPatientView.searchBtnClick.
  rewrite Hne, Hapi.
  unfold SearchPatientView.showErrorMessage,
    SearchPatientView.hideErrorMessage, SearchPatientView.setError,
    SearchPatientView.setPatients.
  eff_unfold. simpl.
  destruct answer as [ps|err]; simpl; [split; reflexivity|].
  destruct (exn_cause err) as [cause|]; simpl;
    [destruct (SearchPatientView.status_below_500 _)|]; simpl;
    split; reflexivity.
Qed.

(** X7.  A search whose request fails: the list of patients stays as it
    was, and the message shown is "Búsqueda incorrecta, ..." when the
    server answered with a status below 500, and "Ha ocurrido un error
    interno, lo sentimos." when the status is 500 or more or no answer
    came at all. *)
Theorem failed_search_message (net : DataLayer.Net)
    (rendered current : SearchPatientView.State) (e : exn) :
  SearchPatientView.emptyQuery rendered = false ->
  DataLayer.axios_post net (DataLayer.search_url net)
    (DataLayer.search_body (JStr (SearchPatientView.query rendered))
       (SearchPatientView.type rendered)) = Throw e ->
  let after :=
    state_of (SearchPatientView.searchBtnClick
                (App.searchPatientsApiCall net) rendered current) in
  SearchPatientView.patients after = SearchPatientView.patients current
  /\ SearchPatientView.error after
     = js "ERROR: "
         ++ (if SearchPatientView.status_below_500 (exn_response e)
             then js "Búsqueda incorrecta, por favor ingresa todos los parámetros!"
             else js "Ha ocurrido un error interno, lo sentimos.").
Proof.
  intros Hne Hpost.
  assert (Hapi : App.searchPatientsApiCall net
                   (SearchPatientView.query rendered)
                   (SearchPatientView.type rendered)
                 = Return (DataLayer.ErrorOf (Error (js "API ERROR") (Some e)))).
  { unfold App.searchPatientsApiCall.
    rewrite searchPatient_run, Hpost. reflexivity. }
  exact (searchBtnClick_state _ rendered current _ Hne Hapi).
Qed.

Lemma failed_search_message_witness :
  let failure :=
    AxiosError (js "Request failed with status code 400")
      (Some {| status := 400; data := JNull |}) true in
  let net :=
    {| DataLayer.BACKEND_URL := None;
       DataLayer.axios_post := fun _ _ => Throw failure;
       DataLayer.axios_get := fun _ => Throw failure |} in
  let s := SearchPatientView.mkState (js "Ana") (JStr (js "Nombres")) [] [] in
  SearchPatientView.error
    (state_of (SearchPatientView.searchBtnClick
                 (App.searchPatientsApiCall net) s s))
  = js "ERROR: Búsqueda incorrecta, por favor ingresa todos los parámetros!".
Proof.
  intros failure net s.
  assert (Hne : SearchPatientView.emptyQuery s = false)
    by (vm_compute; reflexivity).
  rewrite (proj2 (failed_search_message net s s failure Hne eq_refl)).
  vm_compute. reflexivity.
Defined.

(** X8.  A search the server answers with an array of complete records:
    the list of patients becomes the previews of those records, and the
    error message, whatever it was, is cleared. *)
Theorem answered_search_shows_previews (net : DataLayer.Net)
    (rendered current : SearchPatientView.State) (resp : HttpResponse)
    (records : list jsval) (ps : list DataLayer.PatientPreview) :
  SearchPatientView.emptyQuery rendered = false ->
  DataLayer.axios_post net (DataLayer.search_url net)
    (DataLayer.search_body (JStr (SearchPatientView.query rendered))
       (SearchPatientView.type rendered)) = Return resp ->
  data resp = JArr records ->
  Forall2 DataLayer.preview_of records ps ->
  let after :=
    state_of (SearchPatientView.searchBtnClick
                (App.searchPatientsApiCall net) rendered current) in
  SearchPatientView.patients after = ps
  /\ SearchPatientView.error after = [].
Proof.
  intros Hne Hpost Hdata Hps.
  assert (Hapi : App.searchPatientsApiCall net
                   (SearchPatientView.query rendered)
                   (SearchPatientView.type rendered)
                 = Return (DataLayer.ResultOf ps)).
  { rewrite (wired_search_answer net _ _ resp Hpost), Hdata.
    unfold DataLayer.data_map.
    destruct (map_to_preview_spec records)
      as [(ps' & -> & Hps')|(e & -> & Hex)]; unfold result_of; simpl.
    - rewrite (previews_unique records ps ps' Hps Hps'). reflexivity.
    - exfalso. apply Exists_exists in Hex as (r & Hr & Hno).
      destruct (proj1 (list_elem_of_lookup _ _) Hr) as [i Hi].
      destruct (Forall2_lookup_l _ _ _ _ _ Hps Hi) as (p & _ & Hp).
      exact (Hno p Hp). }
  exact (searchBtnClick_state _ rendered current _ Hne Hapi).
Qed.

Lemma answered_search_shows_previews_witness :
  let record :=
    JObj {[ "id" := JNum 7; "nombres" := JStr (js "Ana");
            "apellidos" := JStr (js "Paz") ]} in
  let resp := {| status := 200; data := JArr [record] |} in
  let net :=
    {| DataLayer.BACKEND_URL := None;
       DataLayer.axios_post := fun _ _ => Return resp;
       DataLayer.axios_get := fun _ => Return resp |} in
  let s :=
    SearchPatientView.mkState (js "Ana") (JStr (js "Nombres")) []
      (js "ERROR: The API has changed!") in
  let after :=
    state_of (SearchPatientView.searchBtnClick
                (App.searchPatientsApiCall net) s s) in
  SearchPatientView.patients after
  = [ {| DataLayer.id := JNum 7; DataLayer.names := js "Ana Paz" |} ]
  /\ SearchPatientView.error after = [].
Proof.
  intros record resp net s.
  assert (Hne : SearchPatientView.emptyQuery s = false)
    by (vm_compute; reflexivity).
  apply (answered_search_shows_previews net s s resp [record] _ Hne
           eq_refl eq_refl).
  constructor; [|constructor].
  exists {[ "id" := JNum 7; "nombres" := JStr (js "Ana");
            "apellidos" := JStr (js "Paz") ]}.
  repeat (split; [vm_compute; reflexivity|]). vm_compute. reflexivity.
Defined.

(** X9.  A search the server answers with something that is not an array
    of complete records (not an array at all, or an array in which some
    record has no preview): the list of patients stays as it was and the
    message shown is "The API has changed!". *)
Theorem malformed_answer_message (net : DataLayer.Net)
    (rendered current : SearchPatientView.State) (resp : HttpResponse) :
  SearchPatientView.emptyQuery rendered = false ->
  DataLayer.axios_post net (DataLayer.search_url net)
    (DataLayer.search_body (JStr (SearchPatientView.query rendered))
       (SearchPatientView.type rendered)) = Return resp ->
  (forall records, data resp = JArr records ->
     Exists (fun r => forall p, ~ DataLayer.preview_of r p) records) ->
  let after :=
    state_of (SearchPatientView.searchBtnClick
                (App.searchPatientsApiCall net) rendered current) in
  SearchPatientView.patients after = SearchPatientView.patients current
  /\ SearchPatientView.error after = js "ERROR: " ++ js "The API has changed!".
Proof.
  intros Hne Hpost Hbad.
  assert (Hapi : exists err,
             App.searchPatientsApiCall net
               (SearchPatientView.query rendered)
               (SearchPatientView.type rendered)
             = Return (DataLayer.ErrorOf err) /\ exn_cause err = None).
  { rewrite (wired_search_answer net _ _ resp Hpost).
    destruct (result_of (DataLayer.data_map (data resp) _ tt)) as [ps|e]
      eqn:Hmap.
    - exfalso. unfold DataLayer.data_map in Hmap.
      destruct (data resp) as [| |b|n|s|records|o]; try discriminate.
      specialize (Hbad records eq_refl).
      destruct (map_to_preview_spec records)
        as [(ps' & Hrun & Hps')|(e & Hrun & _)];
        rewrite Hrun in Hmap; [|discriminate].
      apply Exists_exists in Hbad as (r & Hr & Hno).
      destruct (proj1 (list_elem_of_lookup _ _) Hr) as [i Hi].
      destruct (Forall2_lookup_l _ _ _ _ _ Hps' Hi) as (p & _ & Hp).
      exact (Hno p Hp).
    - exists e. split; [reflexivity|].
      unfold DataLayer.data_map in Hmap.
      destruct (data resp); try (injection Hmap as <-; reflexivity).
      apply (map_to_preview_throw_cause _ _ Hmap). }
  destruct Hapi as (err & Hapi & Hcause).
  pose proof (searchBtnClick_state _ rendered current _ Hne Hapi) as H.
  simpl in H. rewrite Hcause in H. exact H.
Qed.

Lemma malformed_answer_message_witness :
  let resp := {| status := 200; data := JObj {[ "patients" := JArr [] ]} |} in
  let net :=
    {| DataLayer.BACKEND_URL := None;
       DataLayer.axios_post := fun _ _ => Return resp;
       DataLayer.axios_get := fun _ => Return resp |} in
  let s := SearchPatientView.mkState (js "Ana") (JStr (js "Nombres")) [] [] in
  SearchPatientView.error
    (state_of (SearchPatientView.searchBtnClick
                 (App.searchPatientsApiCall net) s s))
  = js "ERROR: The API has changed!".
Proof.
  intros resp net s.
  assert (Hne : SearchPatientView.emptyQuery s = false)
    by (vm_compute; reflexivity).
  assert (Hbad : forall records, data resp = JArr records ->
            Exists (fun r => forall p, ~ DataLayer.preview_of r p) records)
    by (intros records H; discriminate H).
  rewrite (proj2 (malformed_answer_message net s s resp Hne eq_refl Hbad)).
  vm_compute. reflexivity.
Defined.

(** ** The patient form, whatever the user types *)

Lemma Forall_filter_bool {A} (f : A -> bool) (l : list A) :
  Forall (fun x => f x = true) (filter (fun x => f x = true) l).
Proof.
  apply Forall_forall. intros x Hx.
  apply list_elem_of_filter in Hx as [Hx _]. exact Hx.
Qed.

Lemma initial_well_formed (stateCui : jsval) :
  PatientForm.well_formed stateCui (PatientForm.initialPatientData stateCui).
Proof.
  unfold PatientForm.well_formed, PatientForm.initialPatientData, prop.
  repeat split.
  - exists []. split; [reflexivity | constructor].
  - exists []. split; [reflexivity | constructor].
  - exists []. reflexivity.
  - left. reflexivity.
  - left. reflexivity.
Qed.

Lemma onChange_well_formed (stateCui : jsval) (patientData : jsobject)
    (i : PatientForm.Input) :
  PatientForm.well_formed stateCui patientData ->
  PatientForm.well_formed stateCui (PatientForm.onChange patientData i).
Proof.
  unfold PatientForm.well_formed.
  intros (Hn & Hs & Hb & Hx & Hc).
  destruct i; simpl;
    unfold PatientForm.handleChange, PatientForm.handleGenderChange, prop;
    simpl;
    repeat (rewrite lookup_insert_eq || rewrite lookup_insert_ne by discriminate);
    simpl; repeat split; try assumption.
  - right. eexists. split; [reflexivity | apply Forall_filter_bool].
  - eexists. split; [reflexivity | apply Forall_filter_bool].
  - eexists. split; [reflexivity | apply Forall_filter_bool].
  - right; left. reflexivity.
  - right; right. reflexivity.
  - eexists. reflexivity.
Qed.

(** Inputs keep a well-formed form well formed. *)
Lemma inputs_keep_well_formed (stateCui : jsval)
    (inputs : list PatientForm.Input) (patientData : jsobject) :
  PatientForm.well_formed stateCui patientData ->
  PatientForm.well_formed stateCui
    (fold_left PatientForm.onChange inputs patientData).
Proof.
  revert patientData.
  induction inputs as [|i rest IH]; intros pd Hpd; simpl; [exact Hpd|].
  apply IH, onChange_well_formed, Hpd.
Qed.

(** X11.  Whatever value the view was opened with and whatever the user
    has typed since: the names and surnames hold only letters and white
    space, the birth date is a string, [sex] is [null], "F" or "M", and
    the CUI is the value the view started with or a string of digits. *)
Theorem form_data_stays_well_formed (stateCui : jsval)
    (inputs : list PatientForm.Input) :
  PatientForm.well_formed stateCui
    (PatientForm.after_inputs stateCui inputs).
Proof.
  unfold PatientForm.after_inputs.
  apply inputs_keep_well_formed.
  apply initial_well_formed.
Qed.

Lemma get_prop_defined (v : jsval) (k : string) :
  v <> JUndefined -> v <> JNull -> exists x, get_prop v k = Return x.
Proof.
  intros Hu Hn. destruct v; simpl; try contradiction; eauto.
Qed.

Lemma cui_is_defined (stateCui : jsval) (inputs : list PatientForm.Input) :
  prop (PatientForm.after_inputs stateCui inputs) "cui" <> JUndefined
  /\ prop (PatientForm.after_inputs stateCui inputs) "cui" <> JNull.
Proof.
  destruct (inputs_keep_well_formed stateCui inputs _
              (initial_well_formed stateCui))
    as (_ & _ & _ & _ & [Hc | (s & Hc & _)]);
    fold (PatientForm.after_inputs stateCui inputs) in Hc; rewrite Hc.
  - unfold PatientForm.initialPatientData, prop.
    rewrite lookup_insert_eq. simpl.
    destruct stateCui; split; discriminate.
  - split; discriminate.
Qed.

(** [validateFormData] answers in one of three ways. *)
Lemma validateFormData_cases (patientData : jsobject) :
  (exists e, PatientForm.validateFormData patientData tt = (Throw e, tt, [])
             /\ get_prop (prop patientData "cui") "length" = Throw e)
  \/ PatientForm.validateFormData patientData tt = (Return true, tt, [])
  \/ exists m,
       PatientForm.validateFormData patientData tt
       = (Return false, tt, [PatientForm.Alert m]).
Proof.
  unfold PatientForm.validateFormData.
  destruct (find (fun f => negb (truthy (prop patientData f)))
              PatientForm.required_fields) as [f|]; eff_unfold;
    (destruct (get_prop (prop patientData "cui") "length") as [len|e]; simpl;
     [|left; eauto]);
    right;
    (destruct (strict_equal len (JNum 13)); simpl; [|right; eauto]).
  - right; eauto.
  - destruct (strict_equal (prop patientData "isWoman") JNull); simpl;
      [right; eauto | left; reflexivity].
Qed.

(** X12.  A rejected form tells the user why exactly once: when
    [validateFormData] answers [false] it has raised one alert, and when
    it answers [true] it has raised none. *)
Theorem validateFormData_alerts_once (patientData : jsobject) (valid : bool)
    (trace : list PatientForm.Event) :
  PatientForm.validateFormData patientData tt = (Return valid, tt, trace) ->
  if valid then trace = []
  else exists message, trace = [PatientForm.Alert message].
Proof.
  intros H.
  destruct (validateFormData_cases patientData)
    as [(e & He & _) | [Hok | (m & Hm)]]; rewrite H in *.
  - discriminate.
  - injection Hok as -> ->. reflexivity.
  - injection Hm as -> ->. eauto.
Qed.

Lemma validateFormData_alerts_once_witness :
  exists message,
    [PatientForm.Alert (js "El CUI debe contener exactamente 13 caracteres.")]
    = [PatientForm.Alert message].
Proof.
  exact (validateFormData_alerts_once
           (PatientForm.initialPatientData JUndefined) false _ eq_refl).
Defined.

(** X13.  In [AddPatientView], whatever value it was opened with and
    whatever the user has typed, pressing the button never ends in an
    exception: [handleSubmit] returns, whether the form is valid or not
    and whether [submitPatientData] succeeds or throws. *)
Theorem handleSubmit_never_throws (stateCui : jsval)
    (inputs : list PatientForm.Input)
    (submit : jsobject -> outcome jsval) :
  exists trace,
    PatientForm.handleSubmit submit
      (PatientForm.after_inputs stateCui inputs) tt
    = (Return tt, tt, trace).
Proof.
  destruct (cui_is_defined stateCui inputs) as [Hu Hn].
  destruct (get_prop_defined _ "length" Hu Hn) as [len Hlen].
  unfold PatientForm.handleSubmit.
  destruct (validateFormData_cases (PatientForm.after_inputs stateCui inputs))
    as [(e & _ & He) | [Hok | (m & Hm)]].
  - congruence.
  - unfold mbind, eff_bind at 1. rewrite Hok. eff_unfold. simpl.
    destruct (submit _); simpl; eauto.
  - unfold mbind, eff_bind at 1. rewrite Hm. eff_unfold. simpl. eauto.
Qed.

(** The run of [handleSubmit] on a form [validateFormData] accepts. *)
Lemma handleSubmit_valid_run (submit : jsobject -> outcome jsval)
    (patientData : jsobject) :
  PatientForm.validateFormData patientData tt = (Return true, tt, []) ->
  PatientForm.handleSubmit submit patientData tt
  = (Return tt, tt,
     match submit patientData with
     | Return id =>
         [PatientForm.SubmitPatientData patientData;
          PatientForm.Alert (js "¡Información registrada con éxito!");
          PatientForm.SetSelectedPatientId id;
          PatientForm.NavigateUpdatePatient true]
     | Throw e =>
         [PatientForm.SubmitPatientData patientData;
          PatientForm.Alert (js "Error al enviar datos: " ++ exn_message e)]
     end).
Proof.
  intros Hok. unfold PatientForm.handleSubmit.
  unfold mbind, eff_bind at 1. rewrite Hok. eff_unfold. simpl.
  destruct (submit patientData); reflexivity.
Qed.

Lemma validateFormData_accepts (patientData : jsobject) :
  result_of (PatientForm.validateFormData patientData tt) = Return true ->
  PatientForm.validateFormData patientData tt = (Return true, tt, []).
Proof.
  intros Hvalid.
  destruct (validateFormData_cases patientData)
    as [(e & He & _) | [Hok | (m & Hm)]];
    [rewrite He in Hvalid | exact Hok | rewrite Hm in Hvalid];
    discriminate.
Qed.

(** X14.  What a valid form does when submitted.  If [submitPatientData]
    returns an identifier, the user is told of the success, the
    identifier becomes the selected patient and the view navigates on,
    replacing the history entry.  If it throws, the user is told
    "Error al enviar datos: " followed by the message of the error, no
    patient is selected and the view stays. *)
Theorem handleSubmit_outcomes (submit : jsobject -> outcome jsval)
    (patientData : jsobject) :
  result_of (PatientForm.validateFormData patientData tt) = Return true ->
  trace_of (PatientForm.handleSubmit submit patientData tt)
  = match submit patientData with
    | Return id =>
        [PatientForm.SubmitPatientData patientData;
         PatientForm.Alert (js "¡Información registrada con éxito!");
         PatientForm.SetSelectedPatientId id;
         PatientForm.NavigateUpdatePatient true]
    | Throw e =>
        [PatientForm.SubmitPatientData patientData;
         PatientForm.Alert (js "Error al enviar datos: " ++ exn_message e)]
    end.
Proof.
  intros Hvalid.
  rewrite (handleSubmit_valid_run submit patientData
             (validateFormData_accepts patientData Hvalid)).
  reflexivity.
Qed.

Lemma handleSubmit_outcomes_witness :
  let patientData :=
    PatientForm.after_inputs JUndefined
      [PatientForm.CuiInput (js "1234567890123");
       PatientForm.NamesInput (js "Ana");
       PatientForm.SurnamesInput (js "Paz");
       PatientForm.FemeninoRadio;
       PatientForm.BirthDateInput (js "2000-01-01")] in
  PatientForm.alerts
    (trace_of
       (PatientForm.handleSubmit
          (fun _ => Throw (Error (js "CUI ya existe.") None)) patientData tt))
  = [js "Error al enviar datos: CUI ya existe."].
Proof.
  intros patientData.
  assert (Hvalid : result_of (PatientForm.validateFormData patientData tt)
                   = Return true) by (vm_compute; reflexivity).
  rewrite (handleSubmit_outcomes _ patientData Hvalid).
  vm_compute. reflexivity.
Defined.

(** X15.  The form on top of [submitPatientData]: when the server rejects
    a valid form with a body [{error: m}], [m] a non-empty string, the
    one alert the user sees is "Error al enviar datos: " followed by [m];
    no patient is selected and the view does not navigate. *)
Theorem server_error_reaches_the_user (net : DataLayer.Net)
    (patientData : jsobject) (body : jsval) (message m : jsstring)
    (code : Z) (answer : jsobject) (request : bool) :
  result_of (PatientForm.validateFormData patientData tt) = Return true ->
  DataLayer.patient_request_body (JObj patientData) = Return body ->
  DataLayer.axios_post net (DataLayer.BASE_URL net ++ js "/patient") body
    = Throw (AxiosError message
               (Some {| status := code; data := JObj answer |}) request) ->
  prop answer "error" = JStr m ->
  m <> [] ->
  trace_of (PatientForm.handleSubmit (App.submitPatientData net)
              patientData tt)
  = [PatientForm.SubmitPatientData patientData;
     PatientForm.Alert (js "Error al enviar datos: " ++ m)].
Proof.
  intros Hvalid Hbody Hpost Herr Hm.
  rewrite (handleSubmit_valid_run _ patientData
             (validateFormData_accepts patientData Hvalid)).
  unfold App.submitPatientData, trace_of; simpl.
  rewrite submitPatientData_run, Hbody, Hpost. simpl.
  unfold DataLayer.registering_message. eff_unfold. simpl.
  rewrite Herr.
  destruct m as [|c m]; [contradiction | reflexivity].
Qed.

Lemma server_error_reaches_the_user_witness :
  let patientData :=
    PatientForm.after_inputs JUndefined
      [PatientForm.CuiInput (js "2987944380208");
       PatientForm.NamesInput (js "Carlos");
       PatientForm.SurnamesInput (js "Gonzalez");
       PatientForm.MasculinoRadio;
       PatientForm.BirthDateInput (js "1985-05-05")] in
  let answer : jsobject := {[ "error" := JStr (js "CUI ya existe.") ]} in
  let failure :=
    AxiosError (js "Request failed with status code 409")
      (Some {| status := 409; data := JObj answer |}) true in
  let net :=
    {| DataLayer.BACKEND_URL := None;
       DataLayer.axios_post := fun _ _ => Throw failure;
       DataLayer.axios_get := fun _ => Throw failure |} in
  PatientForm.alerts
    (trace_of (PatientForm.handleSubmit (App.submitPatientData net)
                 patientData tt))
  = [js "Error al enviar datos: CUI ya existe."].
Proof.
  intros patientData answer failure net.
  assert (Hvalid : result_of (PatientForm.validateFormData patientData tt)
                   = Return true) by (vm_compute; reflexivity).
  assert (Hm : js "CUI ya existe." <> []) by (vm_compute; discriminate).
  rewrite (server_error_reaches_the_user net patientData _ _
             (js "CUI ya existe.") 409 answer true Hvalid eq_refl eq_refl
             eq_refl Hm).
  vm_compute. reflexivity.
Defined.

Lemma strict_equal_F_M :
  strict_equal (JStr (js "F")) (JStr (js "M")) = false
  /\ strict_equal (JStr (js "M")) (JStr (js "F")) = false
  /\ strict_equal (JStr (js "F")) (JStr (js "F")) = true
  /\ strict_equal (JStr (js "M")) (JStr (js "M")) = true
  /\ strict_equal (JStr (js "F")) JNull = false
  /\ strict_equal (JStr (js "M")) JNull = false.
Proof. vm_compute. repeat split. Qed.

(** X16.  The two radio buttons, whatever the user has done: they are
    never both shown checked, one of them is shown checked exactly when
    a gender has been selected, and the one clicked last is the one
    shown checked. *)
Theorem radio_buttons_agree_with_gender (stateCui : jsval)
    (inputs : list PatientForm.Input) :
  let patientData := PatientForm.after_inputs stateCui inputs in
  (PatientForm.femenino_checked patientData
   && PatientForm.masculino_checked patientData = false)
  /\ (PatientForm.femenino_checked patientData
      || PatientForm.masculino_checked patientData
      = PatientForm.gender_selected patientData)
  /\ PatientForm.femenino_checked
       (PatientForm.onChange patientData PatientForm.FemeninoRadio) = true
  /\ PatientForm.masculino_checked
       (PatientForm.onChange patientData PatientForm.MasculinoRadio) = true.
Proof.
  intros patientData.
  destruct strict_equal_F_M as (HFM & HMF & HFF & HMM & HFN & HMN).
  unfold PatientForm.femenino_checked, PatientForm.masculino_checked,
    PatientForm.gender_selected.
  split; [|split; [|split]].
  - destruct (inputs_keep_well_formed stateCui inputs _
                (initial_well_formed stateCui))
      as (_ & _ & _ & [Hs | [Hs | Hs]] & _);
      fold (PatientForm.after_inputs stateCui inputs) in Hs;
      fold patientData in Hs; rewrite Hs;
      rewrite ?HFM, ?HMF, ?HFF, ?HMM; reflexivity.
  - destruct (inputs_keep_well_formed stateCui inputs _
                (initial_well_formed stateCui))
      as (_ & _ & _ & [Hs | [Hs | Hs]] & _);
      fold (PatientForm.after_inputs stateCui inputs) in Hs;
      fold patientData in Hs; rewrite Hs;
      rewrite ?HFM, ?HMF, ?HFF, ?HMM, ?HFN, ?HMN; reflexivity.
  - simpl. unfold PatientForm.handleGenderChange, prop.
    rewrite lookup_insert_eq. exact HFF.
  - simpl. unfold PatientForm.handleGenderChange, prop.
    rewrite lookup_insert_eq. exact HMM.
Qed.

(** ** The student-information handler, path by path *)

Ltac handler_unfold :=
  unfold GetGeneralStudentInfo.invoke, GetGeneralStudentInfo.handler,
    GetGeneralStudentInfo.try_block, GetGeneralStudentInfo.catch_block,
    GetGeneralStudentInfo.finally_block;
  eff_unfold.

Lemma strict_equal_GET :
  strict_equal (JStr (js "GET")) (JStr (js "GET")) = true.
Proof. apply strict_equal_string. reflexivity. Qed.

(** X17.  A GET request without an [id], the database being reachable.
    When the event has no path parameters at all ([null] or
    [undefined]), reading their [id] throws inside the [try] block and
    the answer is 500 with the serialized [TypeError].  When it has path
    parameters, their [id] can be read, and if it is absent or otherwise
    falsy (the empty string), the answer is 400 with the message
    "Invalid request: No id supplied!" and a method whitelist of GET.
    Either way no query has been sent. *)
Theorem request_without_id (w : GetGeneralStudentInfo.World)
    (event : GetGeneralStudentInfo.LambdaEvent)
    (c : GetGeneralStudentInfo.PgClient) :
  GetGeneralStudentInfo.enters_try w event ->
  GetGeneralStudentInfo.getPgClient w (GetGeneralStudentInfo.POSTGRES_URL w)
    = Return c ->
  GetGeneralStudentInfo.connect w = Return tt ->
  GetGeneralStudentInfo.client_end w = Return tt ->
  (GetGeneralStudentInfo.pathParameters event = JUndefined
   \/ GetGeneralStudentInfo.pathParameters event = JNull ->
   exists resp m,
     result_of (GetGeneralStudentInfo.invoke w event) = Return resp
     /\ Backend.statusCode resp = 500
     /\ Backend.body resp = Backend.JSON_stringify_error (TypeError m)
     /\ GetGeneralStudentInfo.queries
          (trace_of (GetGeneralStudentInfo.invoke w event)) = [])
  /\ (GetGeneralStudentInfo.pathParameters event <> JUndefined ->
      GetGeneralStudentInfo.pathParameters event <> JNull ->
      exists id,
        get_prop (GetGeneralStudentInfo.pathParameters event) "id"
          = Return id
        /\ (truthy id = false ->
            exists resp,
              result_of (GetGeneralStudentInfo.invoke w event) = Return resp
              /\ Backend.statusCode resp = 400
              /\ Backend.body_message resp
                 = Some (js "Invalid request: No id supplied!")
              /\ Backend.headers resp !! "Access-Control-Allow-Methods"
                 = Some (js "GET")
              /\ GetGeneralStudentInfo.queries
                   (trace_of (GetGeneralStudentInfo.invoke w event)) = [])).
Proof.
  intros [Hwr Hget] Hc Hconn Hend. split.
  - intros Hnone. handler_unfold.
    rewrite Hget, strict_equal_GET, Hwr. simpl.
    rewrite Hc. simpl. rewrite Hconn. simpl.
    destruct Hnone as [-> | ->]; simpl; rewrite Hend; simpl;
      do 2 eexists; repeat split; reflexivity.
  - intros Hu Hn.
    destruct (get_prop_defined _ "id" Hu Hn) as [id Hid].
    exists id. split; [exact Hid|]. intros Hfalsy.
    handler_unfold.
    rewrite Hget, strict_equal_GET, Hwr. simpl.
    rewrite Hc. simpl. rewrite Hconn. simpl. rewrite Hid. simpl.
    rewrite Hfalsy. simpl. rewrite Hend. simpl.
    eexists. split; [reflexivity|]. split; [reflexivity|].
    split; [|split; reflexivity].
    unfold Backend.body_message; simpl.
    rewrite lookup_singleton_eq. reflexivity.
Qed.

Lemma request_without_id_witness :
  let w := GetGeneralStudentInfo.example_world (Return tt) in
  let bare :=
    {| GetGeneralStudentInfo.httpMethod := JStr (js "GET");
       GetGeneralStudentInfo.pathParameters := JNull |} in
  let empty :=
    {| GetGeneralStudentInfo.httpMethod := JStr (js "GET");
       GetGeneralStudentInfo.pathParameters := JObj ∅ |} in
  (exists resp,
     result_of (GetGeneralStudentInfo.invoke w bare) = Return resp
     /\ Backend.statusCode resp = 500)
  /\ (exists resp,
        result_of (GetGeneralStudentInfo.invoke w empty) = Return resp
        /\ Backend.statusCode resp = 400).
Proof.
  intros w bare empty. split.
  - destruct (proj1 (request_without_id w bare
                       (GetGeneralStudentInfo.pgClient JUndefined)
                       (conj eq_refl eq_refl) eq_refl eq_refl eq_refl)
                (or_intror eq_refl))
      as (resp & m & Hresp & H500 & _).
    exists resp. split; assumption.
  - assert (Hu : GetGeneralStudentInfo.pathParameters empty <> JUndefined)
      by discriminate.
    assert (Hn : GetGeneralStudentInfo.pathParameters empty <> JNull)
      by discriminate.
    destruct (proj2 (request_without_id w empty
                       (GetGeneralStudentInfo.pgClient JUndefined)
                       (conj eq_refl eq_refl) eq_refl eq_refl eq_refl)
                Hu Hn)
      as (id & Hid & H).
    assert (Hfalsy : truthy id = false).
    { simpl in Hid. injection Hid as <-. reflexivity. }
    destruct (H Hfalsy) as (resp & Hresp & H400 & _).
    exists resp. split; assumption.
Defined.

(** X18.  The handler connects before it looks at the request: when the
    connection fails, the answer is 500 with the serialized failure
    whatever the path parameters are, also for a request without [id],
    and no query has been sent. *)
Theorem unreachable_database_is_500 (w : GetGeneralStudentInfo.World)
    (event : GetGeneralStudentInfo.LambdaEvent)
    (c : GetGeneralStudentInfo.PgClient) (e : exn) :
  GetGeneralStudentInfo.enters_try w event ->
  GetGeneralStudentInfo.getPgClient w (GetGeneralStudentInfo.POSTGRES_URL w)
    = Return c ->
  GetGeneralStudentInfo.connect w = Throw e ->
  GetGeneralStudentInfo.client_end w = Return tt ->
  exists resp,
    result_of (GetGeneralStudentInfo.invoke w event) = Return resp
    /\ Backend.statusCode resp = 500
    /\ Backend.body resp = Backend.JSON_stringify_error e
    /\ GetGeneralStudentInfo.queries
         (trace_of (GetGeneralStudentInfo.invoke w event)) = [].
Proof.
  intros [Hwr Hget] Hc Hconn Hend.
  handler_unfold.
  rewrite Hget, strict_equal_GET, Hwr. simpl.
  rewrite Hc. simpl. rewrite Hconn. simpl. rewrite Hend. simpl.
  eexists. repeat split; reflexivity.
Qed.

Lemma unreachable_database_is_500_witness :
  exists resp,
    result_of
      (GetGeneralStudentInfo.invoke
         (GetGeneralStudentInfo.example_world
            (Throw (Error (js "ECONNREFUSED") None)))
         (GetGeneralStudentInfo.get_event JUndefined)) = Return resp
    /\ Backend.statusCode resp = 500.
Proof.
  destruct (unreachable_database_is_500
              (GetGeneralStudentInfo.example_world
                 (Throw (Error (js "ECONNREFUSED") None)))
              (GetGeneralStudentInfo.get_event JUndefined)
              (GetGeneralStudentInfo.pgClient JUndefined)
              (Error (js "ECONNREFUSED") None)
              (conj eq_refl eq_refl) eq_refl eq_refl eq_refl)
    as (resp & Hresp & H500 & _).
  exists resp. split; assumption.
Defined.

(** X19.  A GET request for an [id] the query finds no row for
    ([rowCount] 0): the answer is 404 with the message "Invalid request:
    No student with the given ID found.", open to any origin; the mapper
    is not consulted. *)
Theorem unknown_student_is_404 (w : GetGeneralStudentInfo.World)
    (event : GetGeneralStudentInfo.LambdaEvent)
    (c : GetGeneralStudentInfo.PgClient) (id : jsval)
    (dbResponse : GetGeneralStudentInfo.DbResponse) :
  GetGeneralStudentInfo.enters_try w event ->
  GetGeneralStudentInfo.getPgClient w (GetGeneralStudentInfo.POSTGRES_URL w)
    = Return c ->
  GetGeneralStudentInfo.connect w = Return tt ->
  GetGeneralStudentInfo.client_end w = Return tt ->
  get_prop (GetGeneralStudentInfo.pathParameters event) "id" = Return id ->
  truthy id = true ->
  GetGeneralStudentInfo.query w GetGeneralStudentInfo.select_student [id]
    = Return dbResponse ->
  GetGeneralStudentInfo.rowCount dbResponse = JNum 0 ->
  exists resp,
    result_of (GetGeneralStudentInfo.invoke w event) = Return resp
    /\ Backend.statusCode resp = 404
    /\ Backend.body_message resp
       = Some (js "Invalid request: No student with the given ID found.")
    /\ Backend.headers resp !! "Access-Control-Allow-Origin"
       = Some (js "*").
Proof.
  intros [Hwr Hget] Hc Hconn Hend Hid Htruthy Hquery Hcount.
  handler_unfold.
  rewrite Hget, strict_equal_GET, Hwr. simpl.
  rewrite Hc. simpl. rewrite Hconn. simpl. rewrite Hid. simpl.
  rewrite Htruthy. simpl. rewrite Hquery. simpl. rewrite Hcount. simpl.
  rewrite Hend. simpl.
  eexists. split; [reflexivity|]. split; [reflexivity|].
  split; [|apply lookup_insert_eq].
  unfold Backend.body_message; simpl.
  rewrite lookup_singleton_eq. reflexivity.
Qed.

Lemma unknown_student_is_404_witness :
  exists resp,
    result_of
      (GetGeneralStudentInfo.invoke
         (GetGeneralStudentInfo.example_world (Return tt))
         (GetGeneralStudentInfo.get_event (JStr (js "2")))) = Return resp
    /\ Backend.statusCode resp = 404.
Proof.
  assert (Htruthy : truthy (JStr (js "2")) = true)
    by (vm_compute; reflexivity).
  assert (Hquery :
    GetGeneralStudentInfo.query
      (GetGeneralStudentInfo.example_world (Return tt))
      GetGeneralStudentInfo.select_student [JStr (js "2")]
    = Return {| GetGeneralStudentInfo.rowCount := JNum 0;
                GetGeneralStudentInfo.rows := [] |})
    by (vm_compute; reflexivity).
  destruct (unknown_student_is_404
              (GetGeneralStudentInfo.example_world (Return tt))
              (GetGeneralStudentInfo.get_event (JStr (js "2")))
              (GetGeneralStudentInfo.pgClient JUndefined) (JStr (js "2")) _
              (conj eq_refl eq_refl) eq_refl eq_refl eq_refl eq_refl
              Htruthy Hquery eq_refl)
    as (resp & Hresp & H404 & _).
  exists resp. split; assumption.
Defined.

(** X20.  A GET request for an [id] the query finds a row for: the answer
    is 200, open to any origin, and its body is what
    [mapToAPIStudentInfo] makes of the first row. *)
Theorem known_student_is_200 (w : GetGeneralStudentInfo.World)
    (event : GetGeneralStudentInfo.LambdaEvent)
    (c : GetGeneralStudentInfo.PgClient) (id info : jsval)
    (dbResponse : GetGeneralStudentInfo.DbResponse) :
  GetGeneralStudentInfo.enters_try w event ->
  GetGeneralStudentInfo.getPgClient w (GetGeneralStudentInfo.POSTGRES_URL w)
    = Return c ->
  GetGeneralStudentInfo.connect w = Return tt ->
  GetGeneralStudentInfo.client_end w = Return tt ->
  get_prop (GetGeneralStudentInfo.pathParameters event) "id" = Return id ->
  truthy id = true ->
  GetGeneralStudentInfo.query w GetGeneralStudentInfo.select_student [id]
    = Return dbResponse ->
  strict_equal (GetGeneralStudentInfo.rowCount dbResponse) (JNum 0) = false ->
  GetGeneralStudentInfo.mapToAPIStudentInfo w
    (default JUndefined (GetGeneralStudentInfo.rows dbResponse !! 0%nat))
    = Return info ->
  exists resp,
    result_of (GetGeneralStudentInfo.invoke w event) = Return resp
    /\ Backend.statusCode resp = 200
    /\ Backend.body resp = Backend.Raw info
    /\ Backend.headers resp !! "Access-Control-Allow-Origin"
       = Some (js "*").
Proof.
  intros [Hwr Hget] Hc Hconn Hend Hid Htruthy Hquery Hcount Hmap.
  handler_unfold.
  rewrite Hget, strict_equal_GET, Hwr. simpl.
  rewrite Hc. simpl. rewrite Hconn. simpl. rewrite Hid. simpl.
  rewrite Htruthy. simpl. rewrite Hquery. simpl. rewrite Hcount. simpl.
  rewrite Hmap. simpl. rewrite Hend. simpl.
  eexists. split; [reflexivity|]. split; [reflexivity|].
  split; [reflexivity | apply lookup_insert_eq].
Qed.

Lemma known_student_is_200_witness :
  exists resp,
    result_of
      (GetGeneralStudentInfo.invoke
         (GetGeneralStudentInfo.example_world (Return tt))
         (GetGeneralStudentInfo.get_event (JStr (js "1")))) = Return resp
    /\ Backend.statusCode resp = 200.
Proof.
  assert (Htruthy : truthy (JStr (js "1")) = true)
    by (vm_compute; reflexivity).
  assert (Hquery :
    GetGeneralStudentInfo.query
      (GetGeneralStudentInfo.example_world (Return tt))
      GetGeneralStudentInfo.select_student [JStr (js "1")]
    = Return {| GetGeneralStudentInfo.rowCount := JNum 1;
                GetGeneralStudentInfo.rows :=
                  [JObj {[ "id_paciente" := JNum 1;
                           "carnet" := JStr (js "22386") ]}] |})
    by (vm_compute; reflexivity).
  destruct (known_student_is_200
              (GetGeneralStudentInfo.example_world (Return tt))
              (GetGeneralStudentInfo.get_event (JStr (js "1")))
              (GetGeneralStudentInfo.pgClient JUndefined) (JStr (js "1")) _ _
              (conj eq_refl eq_refl) eq_refl eq_refl eq_refl eq_refl
              Htruthy Hquery eq_refl eq_refl)
    as (resp & Hresp & H200 & _).
  exists resp. split; assumption.
Defined.

(** X21.  Whatever the event and whatever the database does, an
    invocation sends no query or exactly one; the one query is sent only
    after the connection succeeded, its text is the fixed statement with
    the placeholder [$1], and the [id] of the path, which is then
    non-empty, travels as its one value and never as part of the text. *)
Theorem at_most_one_parameterized_query (w : GetGeneralStudentInfo.World)
    (event : GetGeneralStudentInfo.LambdaEvent) :
  GetGeneralStudentInfo.queries
    (trace_of (GetGeneralStudentInfo.invoke w event)) = []
  \/ exists id,
       get_prop (GetGeneralStudentInfo.pathParameters event) "id" = Return id
       /\ truthy id = true
       /\ GetGeneralStudentInfo.connect w = Return tt
       /\ GetGeneralStudentInfo.queries
            (trace_of (GetGeneralStudentInfo.invoke w event))
          = [(GetGeneralStudentInfo.select_student, [id])].
Proof.
  handler_unfold.
  destruct (GetGeneralStudentInfo.withRequest w) as [[]|e0]; simpl;
    [|left; reflexivity].
  destruct (strict_equal _ (JStr (js "GET"))); simpl; [|left; reflexivity].
  destruct (GetGeneralStudentInfo.getPgClient w _) as [c|e1]; simpl;
    [|left; reflexivity].
  destruct (GetGeneralStudentInfo.connect w) as [[]|e2]; simpl.
  2:{ left. destruct (GetGeneralStudentInfo.client_end w); reflexivity. }
  destruct (get_prop (GetGeneralStudentInfo.pathParameters event) "id")
    as [id|e3]; simpl.
  2:{ left. destruct (GetGeneralStudentInfo.client_end w); reflexivity. }
  destruct (truthy id) eqn:Htruthy; simpl.
  2:{ left. destruct (GetGeneralStudentInfo.client_end w); reflexivity. }
  right. exists id. split; [reflexivity|]. split; [exact Htruthy|].
  split; [reflexivity|].
  destruct (GetGeneralStudentInfo.query w _ _) as [dbResponse|e4]; simpl.
  2:{ destruct (GetGeneralStudentInfo.client_end w); reflexivity. }
  destruct (strict_equal _ _); simpl.
  { destruct (GetGeneralStudentInfo.client_end w); reflexivity. }
  destruct (GetGeneralStudentInfo.mapToAPIStudentInfo w _); simpl;
    destruct (GetGeneralStudentInfo.client_end w); reflexivity.
Qed.

(** X22.  When releasing the client fails, the failure is what the
    invocation ends with: the response the handler had ready, whichever
    it was, is lost. *)
Theorem failed_release_overrides_response (w : GetGeneralStudentInfo.World)
    (event : GetGeneralStudentInfo.LambdaEvent)
    (c : GetGeneralStudentInfo.PgClient) (e : exn) :
  GetGeneralStudentInfo.enters_try w event ->
  GetGeneralStudentInfo.getPgClient w (GetGeneralStudentInfo.POSTGRES_URL w)
    = Return c ->
  GetGeneralStudentInfo.client_end w = Throw e ->
  result_of (GetGeneralStudentInfo.invoke w event) = Throw e.
Proof.
  intros Henter Hc Hend.
  destruct (invoke_get w event Henter) as (resp & t & _ & _ & ->).
  unfold GetGeneralStudentInfo.client_after. rewrite Hc, Hend. reflexivity.
Qed.

Lemma failed_release_overrides_response_witness :
  let w :=
    {| GetGeneralStudentInfo.POSTGRES_URL := JStr (js "postgres://db");
       GetGeneralStudentInfo.withRequest := Return tt;
       GetGeneralStudentInfo.getPgClient := fun url =>
         Return (GetGeneralStudentInfo.pgClient url);
       GetGeneralStudentInfo.connect := Return tt;
       GetGeneralStudentInfo.query := fun _ _ =>
         Return {| GetGeneralStudentInfo.rowCount := JNum 0;
                   GetGeneralStudentInfo.rows := [] |};
       GetGeneralStudentInfo.client_end :=
         Throw (Error (js "socket hang up") None);
       GetGeneralStudentInfo.mapToAPIStudentInfo := fun row => Return row;
       GetGeneralStudentInfo.corsMethods := js "GET" |} in
  result_of
    (GetGeneralStudentInfo.invoke w
       (GetGeneralStudentInfo.get_event (JStr (js "1"))))
  = Throw (Error (js "socket hang up") None).
Proof.
  intros w.
  exact (failed_release_overrides_response w
           (GetGeneralStudentInfo.get_event (JStr (js "1")))
           (GetGeneralStudentInfo.pgClient (JStr (js "postgres://db")))
           (Error (js "socket hang up") None)
           (conj eq_refl eq_refl) eq_refl eq_refl).
Defined.

(** X23.  The handler answers with 200, 400, 404 or 500 and nothing else;
    and a 200 is given only when the query returned a row count other
    than 0 and the mapper produced the body. *)
Theorem response_statuses (w : GetGeneralStudentInfo.World)
    (event : GetGeneralStudentInfo.LambdaEvent) (resp : Backend.Response) :
  result_of (GetGeneralStudentInfo.invoke w event) = Return resp ->
  (Backend.statusCode resp = 200
   /\ exists id dbResponse info,
        GetGeneralStudentInfo.query w GetGeneralStudentInfo.select_student
          [id] = Return dbResponse
        /\ strict_equal (GetGeneralStudentInfo.rowCount dbResponse) (JNum 0)
           = false
        /\ GetGeneralStudentInfo.mapToAPIStudentInfo w
             (default JUndefined
                (GetGeneralStudentInfo.rows dbResponse !! 0%nat))
           = Return info
        /\ Backend.body resp = Backend.Raw info)
  \/ Backend.statusCode resp = 400
  \/ Backend.statusCode resp = 404
  \/ Backend.statusCode resp = 500.
Proof.
  handler_unfold.
  destruct (GetGeneralStudentInfo.withRequest w) as [[]|e0]; simpl;
    [|intros [=]].
  destruct (strict_equal _ (JStr (js "GET"))); simpl; [|intros [=]].
  destruct (GetGeneralStudentInfo.getPgClient w _) as [c|e1]; simpl.
  2:{ intros [= <-]. right; right; right. reflexivity. }
  destruct (GetGeneralStudentInfo.connect w) as [[]|e2]; simpl.
  2:{ destruct (GetGeneralStudentInfo.client_end w); simpl; intros [= <-].
      right; right; right. reflexivity. }
  destruct (get_prop (GetGeneralStudentInfo.pathParameters event) "id")
    as [id|e3]; simpl.
  2:{ destruct (GetGeneralStudentInfo.client_end w); simpl; intros [= <-].
      right; right; right. reflexivity. }
  destruct (truthy id); simpl.
  2:{ destruct (GetGeneralStudentInfo.client_end w); simpl; intros [= <-].
      right; left. reflexivity. }
  destruct (GetGeneralStudentInfo.query w _ _) as [dbResponse|e4] eqn:Hq;
    simpl.
  2:{ destruct (GetGeneralStudentInfo.client_end w); simpl; intros [= <-].
      right; right; right. reflexivity. }
  destruct (strict_equal _ _) eqn:Hcount; simpl.
  { destruct (GetGeneralStudentInfo.client_end w); simpl; intros [= <-].
    right; right; left. reflexivity. }
  destruct (GetGeneralStudentInfo.mapToAPIStudentInfo w _) as [info|e5]
    eqn:Hmap; simpl;
    destruct (GetGeneralStudentInfo.client_end w); simpl; intros [= <-].
  - left. split; [reflexivity|]. exists id, dbResponse, info. auto.
  - right; right; right. reflexivity.
Qed.

Lemma response_statuses_witness :
  let resp :=
    Backend.build
      (Backend.setBody
         (Backend.Raw (JObj {[ "id_paciente" := JNum 1;
                               "carnet" := JStr (js "22386") ]}))
         (Backend.addCORSHeaders (js "GET")
            (Backend.setStatusCode 200 Backend.createResponse))) in
  Backend.statusCode resp = 200
  \/ Backend.statusCode resp = 400
  \/ Backend.statusCode resp = 404
  \/ Backend.statusCode resp = 500.
Proof.
  intros resp.
  assert (Hrun : result_of
            (GetGeneralStudentInfo.invoke
               (GetGeneralStudentInfo.example_world (Return tt))
               (GetGeneralStudentInfo.get_event (JStr (js "1"))))
          = Return resp) by (vm_compute; reflexivity).
  destruct (response_statuses _ _ resp Hrun) as [[H _] | H];
    [left; exact H | right; exact H].
Defined.
